(** * Market-depth core of dhan-trading-app

    A shallow embedding of the binary frame decoders
    ([api/websocket.py], [api/websocket_depth.py]), the bid/ask assembler
    ([DhanLevel3WebSocketClient._store_depth_data]), the depth manager
    ([market_data/depth_manager.py]) and the depth analyzer
    ([analysis/depth_analyzer.py]).

    Modelling conventions.
    - A Python [bytes] object is a [list byte]; [struct.unpack] of a slice
      raises [struct.error] unless the slice has exactly the format's size.
    - A Python float read from the wire is kept as its IEEE-754 bit
      pattern ([Z]); [f64_value] gives the value of a finite binary64.
    - In the analyzer, prices and derived metrics are finite floats,
      modelled as rationals [Q]; quantities are non-negative integers.
      Arithmetic on [Q] is exact where Python's rounds, so the properties
      of analyzer outputs proved here are bounds, signs and comparisons
      that rounding preserves, or they ask for inputs the floats hold
      exactly (whole-number prices).
    - Clock reads ([time.time()], [datetime.now()]) are parameters, in
      seconds, as [Q]. *)

From Stdlib Require Import ZArith QArith Qminmax Qabs Qfield Lia Lqa Bool Permutation.
From Stdlib Require Import Strings.Byte Sorted.
From stdpp Require Import base list gmap strings.

Local Open Scope Z_scope.

(** ** Python runtime fragments *)

Module Py.

(** A computation that may raise a Python exception (named by a string). *)
Inductive result (A : Type) : Type :=
| Ok (a : A)
| Raise (e : string).
Arguments Ok {A} a.
Arguments Raise {A} e.

Definition bind {A B} (m : result A) (k : A -> result B) : result B :=
  match m with
  | Ok a => k a
  | Raise e => Raise e
  end.

Notation "'let*' x := m 'in' k" := (bind m (fun x => k))
  (at level 200, x name, m at level 100, k at level 200).

(** [bytes[i:j]] for [0 <= i <= j] (Python clamps at the end). *)
Definition slice {A} (l : list A) (i j : nat) : list A :=
  firstn (j - i) (skipn i l).

(** Big-endian unsigned value of a byte string. *)
Definition be_value (bs : list byte) : Z :=
  fold_left (fun acc b => acc * 256 + Z.of_N (Byte.to_N b)) bs 0.

(** [struct.unpack(">?", bs)[0]] for a format of [size] bytes: the
    big-endian bit pattern, or [struct.error] on a size mismatch. *)
Definition unpack (size : nat) (bs : list byte) : result Z :=
  if Nat.eqb (length bs) size then Ok (be_value bs)
  else Raise "struct.error: unpack requires a buffer of the format size".

Definition unpack_H := unpack 2.   (* ">H" *)
Definition unpack_I := unpack 4.   (* ">I" *)
Definition unpack_f := unpack 4.   (* ">f", bit pattern *)
Definition unpack_d := unpack 8.   (* ">d", bit pattern *)

(** Whether a computation raised. *)
Definition raised {A} (r : result A) : bool :=
  match r with Raise _ => true | Ok _ => false end.

(** Float comparison [x < y] on finite values. *)
Definition Qlt_bool (x y : Q) : bool := negb (Qle_bool y x).

(** [str(n)] for a non-negative integer. *)
Fixpoint digits (fuel : nat) (n : N) (acc : string) : string :=
  match fuel with
  | O => acc
  | S f =>
      let d := String (Ascii.ascii_of_N (48 + N.modulo n 10)) acc in
      if N.ltb n 10 then d else digits f (N.div n 10) d
  end.
Definition str_of_Z (z : Z) : string := digits 20 (Z.to_N z) "".

(** Value of a finite IEEE-754 binary64 given by its bit pattern;
    [None] for infinities and NaNs. *)
Definition f64_value (bits : Z) : option Q :=
  let sign := Z.testbit bits 63 in
  let e := Z.land (Z.shiftr bits 52) 2047 in
  let m := Z.land bits (2 ^ 52 - 1) in
  let mag : Q :=
    if e =? 0 then (inject_Z m * / inject_Z (2 ^ 1074))%Q
    else if e <? 1075
    then (inject_Z (2 ^ 52 + m) * / inject_Z (2 ^ (1075 - e)))%Q
    else inject_Z ((2 ^ 52 + m) * 2 ^ (e - 1075)) in
  if e =? 2047 then None
  else Some (if sign then Qopp mag else mag).

End Py.

Import Py.

(** Exchange segment codes, [_get_exchange_segment_name] (both clients). *)
Definition _get_exchange_segment_name (segment_code : Z) : string :=
  match segment_code with
  | 1 => "NSE_EQ" | 2 => "NSE_FNO" | 3 => "NSE_CURR" | 4 => "BSE_EQ"
  | 5 => "BSE_FNO" | 6 => "BSE_CURR" | 7 => "MCX_COMM" | 8 => "IDX_I"
  | _ => "UNKNOWN"
  end%string.

(** ** Ticker / quote feed decoder ([api/websocket.py]) *)
Module Feed.

Record QuoteFields := {
  q_ltp : Z; q_ltq : Z; q_ltt : Z; q_atp : Z; q_volume : Z;
  q_total_sell_qty : Z; q_total_buy_qty : Z;
  q_open : Z; q_close : Z; q_high : Z; q_low : Z }.

Record DepthEntry := {
  bid_qty : Z; ask_qty : Z; bid_orders : Z; ask_orders : Z;
  bid_price : Z; ask_price : Z }.

Inductive MarketDataPacket :=
| TickerPacket (security_id exchange_segment : string) (ltp ltt : Z)
| QuotePacket (security_id exchange_segment : string) (q : QuoteFields)
| FullPacket (security_id exchange_segment : string) (q : QuoteFields)
    (oi : Z) (market_depth : list DepthEntry).

(* FeedResponseCode *)
Definition TICKER := 2.
Definition QUOTE := 4.
Definition FULL := 8.

Definition _parse_ticker_packet (payload : list byte) (sid seg : string)
  : result MarketDataPacket :=
  let* ltp := unpack_f (slice payload 0 4) in
  let* ltt := unpack_I (slice payload 4 8) in
  Ok (TickerPacket sid seg ltp ltt).

Definition _parse_quote_fields (payload : list byte) : result QuoteFields :=
  let* ltp := unpack_f (slice payload 0 4) in
  let* ltq := unpack_H (slice payload 4 6) in
  let* ltt := unpack_I (slice payload 6 10) in
  let* atp := unpack_f (slice payload 10 14) in
  let* volume := unpack_I (slice payload 14 18) in
  let* tsq := unpack_I (slice payload 18 22) in
  let* tbq := unpack_I (slice payload 22 26) in
  let* op := unpack_f (slice payload 26 30) in
  let* cp := unpack_f (slice payload 30 34) in
  let* hp := unpack_f (slice payload 34 38) in
  let* lp := unpack_f (slice payload 38 42) in
  Ok {| q_ltp := ltp; q_ltq := ltq; q_ltt := ltt; q_atp := atp;
        q_volume := volume; q_total_sell_qty := tsq; q_total_buy_qty := tbq;
        q_open := op; q_close := cp; q_high := hp; q_low := lp |}.

Definition _parse_quote_packet (payload : list byte) (sid seg : string)
  : result MarketDataPacket :=
  let* q := _parse_quote_fields payload in
  Ok (QuotePacket sid seg q).

(** The [for i in range(5)] loop of [_parse_full_packet]. *)
Fixpoint full_depth_loop (payload : list byte) (i fuel : nat)
  : result (list DepthEntry) :=
  match fuel with
  | O => Ok []
  | S f =>
      let depth_start := 54%nat in
      if Nat.leb (depth_start + (i + 1) * 20) (length payload) then
        let o := (depth_start + i * 20)%nat in
        let* bq := unpack_I (slice payload o (o + 4)) in
        let* aq := unpack_I (slice payload (o + 4) (o + 8)) in
        let* bo := unpack_H (slice payload (o + 8) (o + 10)) in
        let* ao := unpack_H (slice payload (o + 10) (o + 12)) in
        let* bp := unpack_f (slice payload (o + 12) (o + 16)) in
        let* ap := unpack_f (slice payload (o + 16) (o + 20)) in
        let* rest := full_depth_loop payload (S i) f in
        Ok ({| bid_qty := bq; ask_qty := aq; bid_orders := bo;
               ask_orders := ao; bid_price := bp; ask_price := ap |} :: rest)
      else full_depth_loop payload (S i) f
  end.

Definition _parse_full_packet (payload : list byte) (sid seg : string)
  : result MarketDataPacket :=
  let* q := _parse_quote_fields (firstn 42 payload) in
  let* oi := if Nat.ltb 30 (length payload)
             then unpack_I (slice payload 26 30) else Ok 0 in
  let* md := full_depth_loop payload 0 5 in
  Ok (FullPacket sid seg q oi md).

Definition _parse_binary_message (message : list byte)
  : result (option MarketDataPacket) :=
  if Nat.ltb (length message) 8 then Ok None else
  let response_code := be_value (slice message 0 1) in
  let* _message_length := unpack_H (slice message 1 3) in
  let exchange_segment := be_value (slice message 3 4) in
  let* security_id := unpack_I (slice message 4 8) in
  let sid := str_of_Z security_id in
  let seg := _get_exchange_segment_name exchange_segment in
  let payload := skipn 8 message in
  if response_code =? TICKER then
    let* p := _parse_ticker_packet payload sid seg in Ok (Some p)
  else if response_code =? QUOTE then
    let* p := _parse_quote_packet payload sid seg in Ok (Some p)
  else if response_code =? FULL then
    let* p := _parse_full_packet payload sid seg in Ok (Some p)
  else Ok None.

(** [_on_message]: the parse runs inside [try ... except Exception]; the
    result is the packet handed to [on_message] (if any) and the log. *)
Definition _on_message (message : list byte)
  : option MarketDataPacket * list string :=
  match _parse_binary_message message with
  | Ok (Some p) => (Some p, [])
  | Ok None => (None, [])
  | Raise e => (None, ["Error parsing message: " ++ e]%string)
  end.

End Feed.

(** ** Twenty-level depth feed decoder ([api/websocket_depth.py]) *)
Module Depth.

(** [MarketDepthLevel] as decoded: [price] is the binary64 bit pattern. *)
Record MarketDepthLevel := { price : Z; quantity : Z; orders : Z }.

(** [MarketDepth20Level]: one side of the book. *)
Record MarketDepth20Level := {
  levels : list MarketDepthLevel;
  side : string;
  security_id : string;
  exchange_segment : string;
  timestamp : Q }.

(* DepthFeedResponseCode *)
Definition BID_DATA := 41.
Definition ASK_DATA := 51.
Definition DISCONNECT := 50.

(** The [for i in range(20)] loop shared by [_parse_bid_depth] and
    [_parse_ask_depth]. *)
Fixpoint depth_levels_loop (payload : list byte) (i fuel : nat)
  : result (list MarketDepthLevel) :=
  match fuel with
  | O => Ok []
  | S f =>
      let offset := (i * 16)%nat in
      let* p := unpack_d (slice payload offset (offset + 8)) in
      let* q := unpack_I (slice payload (offset + 8) (offset + 12)) in
      let* o := unpack_I (slice payload (offset + 12) (offset + 16)) in
      let* rest := depth_levels_loop payload (S i) f in
      Ok ({| price := p; quantity := q; orders := o |} :: rest)
  end.

(** [_parse_bid_depth] / [_parse_ask_depth] up to the call of
    [_store_depth_data]: [None] is the early [return] on a short
    payload; [now] is the [datetime.now()] read. *)
Definition _parse_side_depth (sd : string) (payload : list byte)
  (sid seg : string) (now : Q) : result (option MarketDepth20Level) :=
  if Nat.ltb (length payload) 320 then Ok None else
  let* lv := depth_levels_loop payload 0 20 in
  Ok (Some {| levels := lv; side := sd; security_id := sid;
              exchange_segment := seg; timestamp := now |}).

Definition _parse_bid_depth := _parse_side_depth "BID".
Definition _parse_ask_depth := _parse_side_depth "ASK".

(** What [_parse_depth_message] hands on. *)
Inductive Decoded :=
| StoreBid (d : MarketDepth20Level)   (* _store_depth_data(.., "bid", d) *)
| StoreAsk (d : MarketDepth20Level)   (* _store_depth_data(.., "ask", d) *)
| NoFrame.

Definition opt_store (mk : MarketDepth20Level -> Decoded)
  (r : result (option MarketDepth20Level)) : result Decoded :=
  let* o := r in
  Ok (match o with Some d => mk d | None => NoFrame end).

(** [_handle_disconnect_message] only logs. *)
Definition _handle_disconnect_message (payload : list byte) : result unit :=
  if Nat.leb 2 (length payload)
  then let* _code := unpack_H (slice payload 0 2) in Ok tt
  else Ok tt.

Definition _parse_depth_message (message : list byte) (now : Q)
  : result Decoded :=
  if Nat.ltb (length message) 12 then Ok NoFrame else
  let* _message_length := unpack_H (slice message 0 2) in
  let feed_response_code := be_value (slice message 2 3) in
  let exchange_segment := be_value (slice message 3 4) in
  let* sec := unpack_I (slice message 4 8) in
  let* _message_sequence := unpack_I (slice message 8 12) in
  let sid := str_of_Z sec in
  let seg := _get_exchange_segment_name exchange_segment in
  let payload := skipn 12 message in
  if feed_response_code =? BID_DATA then
    opt_store StoreBid (_parse_bid_depth payload sid seg now)
  else if feed_response_code =? ASK_DATA then
    opt_store StoreAsk (_parse_ask_depth payload sid seg now)
  else if feed_response_code =? DISCONNECT then
    let* _u := _handle_disconnect_message payload in Ok NoFrame
  else Ok NoFrame.

(** The level decoded from the 16-byte record [i] of a payload. *)
Definition wire_level (payload : list byte) (i : nat) : MarketDepthLevel :=
  let o := (i * 16)%nat in
  {| price := be_value (slice payload o (o + 8));
     quantity := be_value (slice payload (o + 8) (o + 12));
     orders := be_value (slice payload (o + 12) (o + 16)) |}.

End Depth.

(** ** Bid/ask assembler ([DhanLevel3WebSocketClient._store_depth_data]) *)
Module Assembler.
Import Depth.

(** One entry of [self.depth_buffers]: the dict with optional keys
    ['bid'], ['ask'] and ['timestamp']. *)
Record Buffer := {
  buf_bid : option MarketDepth20Level;
  buf_ask : option MarketDepth20Level;
  buf_timestamp : option Q }.

Definition empty_buffer : Buffer :=
  {| buf_bid := None; buf_ask := None; buf_timestamp := None |}.

Record MarketDepth20Response := {
  r_security_id : string;
  r_exchange_segment : string;
  bid_depth : MarketDepth20Level;
  ask_depth : MarketDepth20Level;
  r_timestamp : Q }.

Inductive SideKey := KBid | KAsk.

(** [self.depth_buffers[security_id][side] = depth_data]. *)
Definition set_side (k : SideKey) (d : MarketDepth20Level) (b : Buffer)
  : Buffer :=
  match k with
  | KBid => {| buf_bid := Some d; buf_ask := buf_ask b;
               buf_timestamp := buf_timestamp b |}
  | KAsk => {| buf_bid := buf_bid b; buf_ask := Some d;
               buf_timestamp := buf_timestamp b |}
  end.

Definition set_timestamp (t : Q) (b : Buffer) : Buffer :=
  {| buf_bid := buf_bid b; buf_ask := buf_ask b; buf_timestamp := Some t |}.

(** [self.buffer_timeout] *)
Definition buffer_timeout : Q := 1.

Abbreviation Buffers := (gmap string Buffer).

(** [_store_depth_data]: [current_time] is the [time.time()] read,
    [now] the [datetime.now()] stamped on the response.  The result is
    the new [depth_buffers] and the response passed to
    [on_depth_update], if any. *)
Definition _store_depth_data (depth_buffers : Buffers) (sid : string)
  (k : SideKey) (depth_data : MarketDepth20Level) (current_time now : Q)
  : Buffers * option MarketDepth20Response :=
  let b0 := default empty_buffer (depth_buffers !! sid) in
  let b := set_timestamp current_time (set_side k depth_data b0) in
  let bufs := <[sid := b]> depth_buffers in
  match buf_bid b, buf_ask b, buf_timestamp b with
  | Some bd, Some ad, Some ts =>
      if Qle_bool (current_time - ts) buffer_timeout then
        (delete sid bufs,
         Some {| r_security_id := sid;
                 r_exchange_segment := exchange_segment depth_data;
                 bid_depth := bd; ask_depth := ad; r_timestamp := now |})
      else (bufs, None)
  | _, _, _ => (bufs, None)
  end.

(** One message taken off the queue by [_process_message_queue] at time
    [t]: decode, then store. *)
Definition on_depth_message (bufs : Buffers) (t : Q) (msg : list byte)
  : result (Buffers * option MarketDepth20Response) :=
  let* dec := _parse_depth_message msg t in
  match dec with
  | StoreBid d => Ok (_store_depth_data bufs (security_id d) KBid d t t)
  | StoreAsk d => Ok (_store_depth_data bufs (security_id d) KAsk d t t)
  | NoFrame => Ok (bufs, None)
  end.

(** The processing loop over time-stamped messages; a raised exception
    is caught by the loop and leaves the buffers as they were.  The list
    returned is the sequence of responses given to [on_depth_update]. *)
Fixpoint run (bufs : Buffers) (evs : list (Q * list byte))
  : Buffers * list MarketDepth20Response :=
  match evs with
  | [] => (bufs, [])
  | (t, msg) :: rest =>
      let '(bufs1, out) :=
        match on_depth_message bufs t msg with
        | Ok r => r
        | Raise _ => (bufs, None)
        end in
      let '(bufs2, outs) := run bufs1 rest in
      (bufs2, match out with Some r => r :: outs | None => outs end)
  end.

(** Frame arrival times never go backwards. *)
Fixpoint monotone_from (t : Q) (ts : list Q) : bool :=
  match ts with
  | [] => true
  | t1 :: rest => Qle_bool t t1 && monotone_from t1 rest
  end.

Definition monotone (ts : list Q) : bool :=
  match ts with
  | [] => true
  | t1 :: rest => monotone_from t1 rest
  end.

End Assembler.

(** ** Wire encoders for concrete test frames *)
Module Wire.

Definition byte_of (v : Z) : byte :=
  match Byte.of_N (Z.to_N (v mod 256)) with Some b => b | None => x00 end.

Fixpoint be_bytes (w : nat) (v : Z) : list byte :=
  match w with
  | O => []
  | S w' => be_bytes w' (v / 256) ++ [byte_of v]
  end.

(** 16-byte depth records: (price bits, quantity, orders). *)
Definition encode_levels (l : list (Z * Z * Z)) : list byte :=
  flat_map (fun '(p, q, o) => be_bytes 8 p ++ be_bytes 4 q ++ be_bytes 4 o) l.

(** A depth frame: 12-byte header then payload. *)
Definition depth_frame (code seg sid : Z) (payload : list byte) : list byte :=
  be_bytes 2 (Z.of_nat (12 + length payload)) ++ be_bytes 1 code
  ++ be_bytes 1 seg ++ be_bytes 4 sid ++ be_bytes 4 0 ++ payload.

(** The binary64 bit patterns of 1.0 and 2.0. *)
Definition one_f64 : Z := 4607182418800017408.
Definition two_f64 : Z := 4611686018427387904.

(** Twenty levels priced 1.0 with quantity 10 and 1 order. *)
Definition flat_side : list byte := encode_levels (repeat (one_f64, 10, 1) 20).

(** A bid and an ask frame of instrument 7 on NSE_EQ (segment code 1),
    and the ask frame of instrument 7 on NSE_FNO (code 2). *)
Definition bid_frame : list byte := depth_frame 41 1 7 flat_side.
Definition ask_frame : list byte := depth_frame 51 1 7 flat_side.
Definition ask_frame_fno : list byte := depth_frame 51 2 7 flat_side.

(** A bid frame whose first two levels are priced 1.0 then 2.0. *)
Definition rising_bid_frame : list byte :=
  depth_frame 41 1 7
    (encode_levels ((one_f64, 10, 1) :: (two_f64, 10, 1) :: repeat (0, 0, 0) 18)).

End Wire.

(** ** Depth analyzer ([analysis/depth_analyzer.py]) *)
Module Analysis.

Local Open Scope Q_scope.

(** [MarketDepthLevel] as the analyzer reads it: a finite price and
    non-negative integer quantity and order count. *)
Record Level := { price : Q; quantity : N; orders : N }.

(** The parts of [MarketDepth20Response] the analyzer reads. *)
Record Response := {
  security_id : string;
  exchange_segment : string;
  bid_levels : list Level;
  ask_levels : list Level }.

Definition qty (l : Level) : Q := inject_Z (Z.of_N (quantity l)).

(** [sum(level.quantity for level in ls)] *)
Definition sum_qty (ls : list Level) : Q :=
  fold_left (fun acc l => acc + qty l) ls 0.

(** [_calculate_price_impact] *)
Definition _calculate_price_impact (bid ask : list Level) : Q :=
  match bid, ask with
  | b0 :: _, a0 :: _ =>
      let best_bid := price b0 in
      let best_ask := price a0 in
      let spread := best_ask - best_bid in
      let avg_top_5_qty := sum_qty (firstn 5 bid ++ firstn 5 ask) / 10 in
      let impact := if Qlt_bool 0 avg_top_5_qty
                    then spread / avg_top_5_qty * 1000 else spread in
      Qmin impact 1
  | _, _ => 0
  end.

(** [MarketMicrostructure] *)
Record Microstructure := {
  order_flow_imbalance : Q;
  price_impact_estimate : Q;
  liquidity_score : Q;
  market_efficiency : Q;
  volatility_estimate : Q }.

(** [MarketDepth20Response.detect_demand_supply_zones] with the default
    [threshold_multiplier = 2.0]: indices of the significant levels. *)
Definition zone_indices (ls : list Level) : list nat :=
  let avg := match ls with
             | [] => 0
             | _ => sum_qty ls / inject_Z (Z.of_nat (length ls))
             end in
  map fst (List.filter (fun '(_, l) => Qlt_bool (avg * 2) (qty l))
                  (combine (seq 0 (length ls)) ls)).

Definition detect_demand_supply_zones (d : Response) : list nat * list nat :=
  (zone_indices (bid_levels d), zone_indices (ask_levels d)).

Inductive SignalType := BUY | SELL | HOLD.

Definition is_type (t : SignalType) (c : SignalType * Q) : bool :=
  match t, fst c with
  | BUY, BUY | SELL, SELL | HOLD, HOLD => true
  | _, _ => false
  end.

(** The [signal_components] accumulated by [generate_trading_signal]. *)
Definition signal_components (ofi : Q) (demand supply : nat)
  : list (SignalType * Q) :=
  (if Qlt_bool (3 # 10) ofi then [(BUY, 70)]
   else if Qlt_bool ofi (-(3 # 10)) then [(SELL, 70)] else [])
  ++ (if Nat.ltb (supply + 2) demand then [(BUY, 60)]
      else if Nat.ltb (demand + 2) supply then [(SELL, 60)] else []).

Definition sum_weights (l : list (SignalType * Q)) : Q :=
  fold_left (fun acc s => acc + snd s) l 0.

Definition len_q {A} (l : list A) : Q := inject_Z (Z.of_nat (length l)).

(** The "Combine signals" block: (signal_type, strength, confidence). *)
Definition combine_signals (comps : list (SignalType * Q)) (liq : Q)
  : SignalType * Q * Q :=
  match comps with
  | [] => (HOLD, 0, 50)
  | _ =>
      let buy_signals := List.filter (is_type BUY) comps in
      let sell_signals := List.filter (is_type SELL) comps in
      let '(st, strength) :=
        if Nat.ltb (length sell_signals) (length buy_signals)
        then (BUY, sum_weights buy_signals / len_q buy_signals)
        else if Nat.ltb (length buy_signals) (length sell_signals)
        then (SELL, sum_weights sell_signals / len_q sell_signals)
        else (HOLD, 0) in
      (st, strength, Qmin 90 (strength * (liq / 100)))
  end.

(** [_calculate_target_levels] *)
Definition _calculate_target_levels (d : Response) (st : SignalType)
  : list Q :=
  match bid_levels d, ask_levels d with
  | b0 :: _, a0 :: _ =>
      let pick (ls : list Level) (l0 : Level) :=
        map price (List.filter (fun l => Qlt_bool (qty l0 * (3 # 2)) (qty l))
                          (firstn (Nat.min 3 (length ls)) ls)) in
      let targets := match st with
                     | BUY => pick (ask_levels d) a0
                     | SELL => pick (bid_levels d) b0
                     | HOLD => []
                     end in
      firstn 3 targets
  | _, _ => []
  end.

(** [_calculate_stop_loss] *)
Definition _calculate_stop_loss (d : Response) (st : SignalType)
  : option Q :=
  match bid_levels d, ask_levels d with
  | b0 :: _, a0 :: _ =>
      let spread := price a0 - price b0 in
      match st with
      | BUY =>
          match find (fun l => Qlt_bool (qty b0 * 2) (qty l))
                     (firstn 5 (skipn 1 (bid_levels d))) with
          | Some l => Some (price l - spread)
          | None => Some (price b0 - spread * 2)
          end
      | SELL =>
          match find (fun l => Qlt_bool (qty a0 * 2) (qty l))
                     (firstn 5 (skipn 1 (ask_levels d))) with
          | Some l => Some (price l + spread)
          | None => Some (price a0 + spread * 2)
          end
      | HOLD => None
      end
  | _, _ => None
  end.

Inductive TimeHorizon := SCALP | INTRADAY | SWING.

(** [TradingSignal] (the human-readable [reasoning] list is left out). *)
Record TradingSignal := {
  signal_type : SignalType;
  strength : Q;
  confidence : Q;
  target_levels : list Q;
  stop_loss : option Q;
  time_horizon : TimeHorizon }.

(** [generate_trading_signal] from line 127 on, given the metrics [m]
    that its first line computes with [analyze_market_microstructure]. *)
Definition signal_of (d : Response) (m : Microstructure) : TradingSignal :=
  let '(demand, supply) := detect_demand_supply_zones d in
  let comps := signal_components (order_flow_imbalance m)
                 (length demand) (length supply) in
  let '(st, s, c) := combine_signals comps (liquidity_score m) in
  {| signal_type := st; strength := s; confidence := c;
     target_levels := _calculate_target_levels d st;
     stop_loss := _calculate_stop_loss d st;
     time_horizon :=
       if Qlt_bool (8 # 10) (volatility_estimate m) then SCALP
       else if Qlt_bool (4 # 10) (volatility_estimate m) then INTRADAY
       else SWING |}.

End Analysis.

(** ** Analyzer history ([MarketDepthAnalyzer.depth_history]) *)
Module History.
Import Analysis.

Local Open Scope Q_scope.

(** The analyzer object: [self.history_size] and [self.depth_history]
    ([deque(maxlen=history_size)]).  [self.analysis_cache] is never
    filled in this class, so it is left out. *)
Record MarketDepthAnalyzer := {
  history_size : nat;
  depth_history : list Response }.

Definition new_analyzer (history_size : nat) : MarketDepthAnalyzer :=
  {| history_size := history_size; depth_history := [] |}.

(** [deque.append] on a bounded deque: when full, the oldest entry is
    dropped first. *)
Definition deque_append {A} (maxlen : nat) (h : list A) (x : A) : list A :=
  if Nat.ltb (length h) maxlen then h ++ [x]
  else match h with
       | [] => []
       | _ :: t => t ++ [x]
       end.

(** [add_depth_snapshot] *)
Definition add_depth_snapshot (an : MarketDepthAnalyzer) (d : Response)
  : MarketDepthAnalyzer :=
  {| history_size := history_size an;
     depth_history := deque_append (history_size an) (depth_history an) d |}.

(** [list(self.depth_history)[-10:]] *)
Definition recent_snapshots (an : MarketDepthAnalyzer) : list Response :=
  let h := depth_history an in skipn (length h - 10) h.

(** [(x.bid_depth.levels[0].price + x.ask_depth.levels[0].price) / 2] *)
Definition mid (r : Response) : result Q :=
  match bid_levels r, ask_levels r with
  | b0 :: _, a0 :: _ => Ok ((Analysis.price b0 + Analysis.price a0) / 2)
  | _, _ => Raise "IndexError: list index out of range"
  end.

(** The [for i in range(1, len(recent_snapshots))] loop. *)
Fixpoint price_changes (prev : Response) (rest : list Response)
  : result (list Q) :=
  match rest with
  | [] => Ok []
  | cur :: r =>
      let* prev_mid := mid prev in
      let* curr_mid := mid cur in
      let* tl := price_changes cur r in
      Ok (if Qlt_bool 0 prev_mid
          then Qabs (curr_mid - prev_mid) / prev_mid :: tl else tl)
  end.

(** [_estimate_volatility(depth_data)]; the argument is not read. *)
Definition _estimate_volatility (an : MarketDepthAnalyzer) (depth_data : Response)
  : result Q :=
  if Nat.ltb (length (depth_history an)) 2 then Ok (1 # 2) else
  match recent_snapshots an with
  | [] => Ok (1 # 2)
  | first :: rest =>
      let* changes := price_changes first rest in
      match changes with
      | [] => Ok (1 # 2)
      | _ => Ok (Qmin (fold_left Qplus changes 0 / len_q changes * 100) 1)
      end
  end.

End History.

(** ** Depth manager ([market_data/depth_manager.py]) *)
Module Manager.
Import Assembler.

(** A registered callback: an identity, and whether calling it on a
    given update raises. *)
Record Callback := {
  cb_id : nat;
  cb_raises : MarketDepth20Response -> bool }.

(** The [DhanLevel3WebSocketClient] state [subscribe_instruments] reads
    and writes: [is_connected] and [self.subscriptions]. *)
Record WsClient := {
  is_connected : bool;
  subscriptions : gmap string (string * string) }.

Record MarketDepthManager := {
  ws_client : option WsClient;
  depth_data : gmap string MarketDepth20Response;
  subscribers : gmap string (list Callback);   (* defaultdict(list) *)
  analysis_cache : gset string;                (* keys present *)
  max_subscriptions : nat }.

Definition supported_segments : list string := ["NSE_EQ"; "NSE_FNO"]%string.

Definition in_strings (s : string) (l : list string) : bool :=
  existsb (fun x => String.eqb x s) l.

(** [DhanLevel3WebSocketClient.subscribe_instruments]; the
    [self.ws.send] of the request is taken to succeed. *)
Definition subscribe_instruments (ws : WsClient)
  (instruments : list (string * string)) : result WsClient :=
  if negb (is_connected ws) then Raise "WebSocketError: WebSocket not connected"
  else if Nat.ltb 50 (length instruments)
  then Raise "ValueError: Maximum 50 instruments allowed per connection"
  else if negb (forallb (fun '(_, seg) => in_strings seg supported_segments)
                        instruments)
  then Raise "ValueError: Exchange segment not supported for 20-level depth"
  else Ok {| is_connected := is_connected ws;
             subscriptions :=
               fold_left (fun m '(sid, seg) =>
                            <[(seg ++ ":" ++ sid)%string := (seg, sid)]> m)
                         instruments (subscriptions ws) |}.

Definition set_ws (m : MarketDepthManager) (ws : WsClient) : MarketDepthManager :=
  {| ws_client := Some ws; depth_data := depth_data m;
     subscribers := subscribers m; analysis_cache := analysis_cache m;
     max_subscriptions := max_subscriptions m |}.

Definition set_subscribers (m : MarketDepthManager)
  (s : gmap string (list Callback)) : MarketDepthManager :=
  {| ws_client := ws_client m; depth_data := depth_data m;
     subscribers := s; analysis_cache := analysis_cache m;
     max_subscriptions := max_subscriptions m |}.

(** [subscribe_depth]: the manager after the call (mutations made before
    an exception stay) and the outcome. *)
Definition subscribe_depth (m : MarketDepthManager) (security_id : string)
  (exchange_segment : string) (callback : option Callback)
  : MarketDepthManager * result unit :=
  match ws_client m with
  | Some ws =>
    if negb (is_connected ws) then (m, Raise "MarketDataError: WebSocket not connected")
    else if negb (in_strings exchange_segment supported_segments)
    then (m, Raise "ValueError: Exchange segment not supported for 20-level depth")
    else if Nat.leb (max_subscriptions m) (size (subscribers m))
    then (m, Raise "MarketDataError: Maximum subscriptions reached")
    else
      let m1 := match callback with
                | Some cb =>
                    set_subscribers m
                      (<[security_id := default [] (subscribers m !! security_id)
                                         ++ [cb]]> (subscribers m))
                | None => m
                end in
      match depth_data m1 !! security_id with
      | Some _ => (m1, Ok tt)
      | None =>
          match subscribe_instruments ws [(security_id, exchange_segment)] with
          | Ok ws' => (set_ws m1 ws', Ok tt)
          | Raise e => (m1, Raise ("MarketDataError: Subscription failed: " ++ e)%string)
          end
      end
  | None => (m, Raise "MarketDataError: WebSocket not connected")
  end.

(** The [for callback in callbacks: try ... except] loop: each call is
    recorded as a delivery; a raising call adds a log line. *)
Fixpoint dispatch (callbacks : list Callback) (r : MarketDepth20Response)
  : list (nat * MarketDepth20Response) * list string :=
  match callbacks with
  | [] => ([], [])
  | cb :: rest =>
      let '(ds, logs) := dispatch rest r in
      ((cb_id cb, r) :: ds,
       if cb_raises cb r then "Error in depth callback" :: logs else logs)
  end%string.

(** [_on_depth_update] *)
Definition _on_depth_update (m : MarketDepthManager) (r : MarketDepth20Response)
  : MarketDepthManager * (list (nat * MarketDepth20Response) * list string) :=
  let sid := r_security_id r in
  let m' := {| ws_client := ws_client m;
               depth_data := <[sid := r]> (depth_data m);
               subscribers := subscribers m;
               analysis_cache := analysis_cache m ∖ {[ sid ]};
               max_subscriptions := max_subscriptions m |} in
  let callbacks := default [] (subscribers m !! sid) in
  (m', dispatch callbacks r).

(** A freshly connected manager. *)
Definition connected_manager : MarketDepthManager :=
  {| ws_client := Some {| is_connected := true; subscriptions := ∅ |};
     depth_data := ∅; subscribers := ∅; analysis_cache := ∅;
     max_subscriptions := 50 |}.

(** [subscribe_depth] called in turn for each (security_id, callback). *)
Fixpoint subscribe_all (m : MarketDepthManager)
  (reqs : list (string * option Callback)) : MarketDepthManager * list (result unit) :=
  match reqs with
  | [] => (m, [])
  | (sid, cb) :: rest =>
      let '(m1, r) := subscribe_depth m sid "NSE_EQ" cb in
      let '(m2, rs) := subscribe_all m1 rest in
      (m2, r :: rs)
  end.

End Manager.

(** ** Level 3 client state ([DhanLevel3WebSocketClient] in
    [api/websocket_depth.py]) *)
Module Level3.
Import Manager.

Local Open Scope Q_scope.

(** The attributes read and written by [_on_message], [_handle_error],
    [disconnect], [_on_open] and [_on_close]; [ws] holds [is_connected]
    and [self.subscriptions]. *)
Record Level3Client := {
  ws : WsClient;
  message_queue : list (list byte);
  message_count : nat;
  last_rate_check : Q;
  error_count : nat;
  last_error_time : Q;
  stop_processing : bool;
  reconnect_attempts : nat }.

Definition max_messages_per_second : nat := 1000.
Definition max_errors : nat := 10.
Definition error_reset_time : Q := 300.
Definition max_reconnect_attempts : nat := 5.

(** [_on_message] at time [current_time]: the new state and the log. *)
Definition _on_message (c : Level3Client) (current_time : Q) (message : list byte)
  : Level3Client * list string :=
  let '(count, last, logs) :=
    if Qle_bool 1 (current_time - last_rate_check c) then
      (0%nat, current_time,
       if Nat.ltb max_messages_per_second (message_count c)
       then ["Rate limit exceeded"%string] else [])
    else (message_count c, last_rate_check c, []) in
  ({| ws := ws c; message_queue := message_queue c ++ [message];
      message_count := S count; last_rate_check := last;
      error_count := error_count c; last_error_time := last_error_time c;
      stop_processing := stop_processing c;
      reconnect_attempts := reconnect_attempts c |}, logs).

(** Messages arriving one after the other, each with its arrival time. *)
Fixpoint on_messages (c : Level3Client) (evs : list (Q * list byte))
  : Level3Client * list string :=
  match evs with
  | [] => (c, [])
  | (t, msg) :: rest =>
      let '(c1, l1) := _on_message c t msg in
      let '(c2, l2) := on_messages c1 rest in
      (c2, l1 ++ l2)
  end.

(** [disconnect]: the processing loop is told to stop, the connection
    is marked closed and the queue is cleared ([ws.send] and [ws.close]
    are taken to succeed). *)
Definition disconnect (c : Level3Client) : Level3Client :=
  {| ws := {| is_connected := false; subscriptions := subscriptions (ws c) |};
     message_queue := []; message_count := message_count c;
     last_rate_check := last_rate_check c; error_count := error_count c;
     last_error_time := last_error_time c; stop_processing := true;
     reconnect_attempts := reconnect_attempts c |}.

(** [_handle_error] at time [current_time]: the new state, and whether
    it forced a disconnect. *)
Definition _handle_error (c : Level3Client) (current_time : Q)
  : Level3Client * bool :=
  let count := if Qlt_bool error_reset_time (current_time - last_error_time c)
               then 0%nat else error_count c in
  let c1 := {| ws := ws c; message_queue := message_queue c;
               message_count := message_count c;
               last_rate_check := last_rate_check c;
               error_count := S count; last_error_time := current_time;
               stop_processing := stop_processing c;
               reconnect_attempts := reconnect_attempts c |} in
  if Nat.leb max_errors (error_count c1) then (disconnect c1, true) else (c1, false).

(** Errors at the given times, one after the other: the final state and,
    for each error, whether it forced a disconnect. *)
Fixpoint handle_errors (c : Level3Client) (ts : list Q)
  : Level3Client * list bool :=
  match ts with
  | [] => (c, [])
  | t :: rest =>
      let '(c1, f) := _handle_error c t in
      let '(c2, fs) := handle_errors c1 rest in
      (c2, f :: fs)
  end.

(** [_on_open] *)
Definition _on_open (c : Level3Client) : Level3Client :=
  {| ws := {| is_connected := true; subscriptions := subscriptions (ws c) |};
     message_queue := message_queue c; message_count := message_count c;
     last_rate_check := last_rate_check c; error_count := 0;
     last_error_time := last_error_time c; stop_processing := false;
     reconnect_attempts := 0 |}.

Definition set_ws (c : Level3Client) (w : WsClient) : Level3Client :=
  {| ws := w; message_queue := message_queue c; message_count := message_count c;
     last_rate_check := last_rate_check c; error_count := error_count c;
     last_error_time := last_error_time c; stop_processing := stop_processing c;
     reconnect_attempts := reconnect_attempts c |}.

Definition set_reconnect_attempts (c : Level3Client) (n : nat) : Level3Client :=
  {| ws := ws c; message_queue := message_queue c; message_count := message_count c;
     last_rate_check := last_rate_check c; error_count := error_count c;
     last_error_time := last_error_time c; stop_processing := stop_processing c;
     reconnect_attempts := n |}.

(** The instruments rebuilt from [self.subscriptions.values()] (in the
    map's order; [subscribe_instruments] does not depend on it). *)
Definition tracked_instruments (w : WsClient) : list (string * string) :=
  map (fun '(_, (seg, sid)) => (sid, seg)) (map_to_list (subscriptions w)).

(** [_on_close]; [opened] says whether [connect] saw [_on_open] run
    within its timeout (otherwise it raises [WebSocketError]).  The delay
    before reconnecting is left out. *)
Definition _on_close (c : Level3Client) (opened : bool)
  : Level3Client * list string :=
  let c1 := set_ws c {| is_connected := false;
                        subscriptions := subscriptions (ws c) |} in
  if Nat.ltb (reconnect_attempts c1) max_reconnect_attempts then
    let c2 := set_reconnect_attempts c1 (S (reconnect_attempts c1)) in
    if opened then
      let c3 := _on_open c2 in
      if Nat.eqb (size (subscriptions (ws c3))) 0 then (c3, [])
      else match subscribe_instruments (ws c3) (tracked_instruments (ws c3)) with
           | Ok w => (set_ws c3 w, [])
           | Raise e => (c3, ["Level 3 reconnection failed: " ++ e]%string)
           end
    else (c2, ["Level 3 reconnection failed: WebSocketError: Connection failed"%string])
  else (c1, []).

End Level3.

(** ** Ticker/quote client subscriptions ([DhanWebSocketClient] in
    [api/websocket.py]) *)
Module FeedClient.


(* FeedMode *)
Definition TICKER_MODE := 15.
Definition QUOTE_MODE := 17.
Definition FULL_MODE := 19.


(** [instruments[i:i + 100]] for [i] in [range(0, len(instruments), 100)]. *)
Fixpoint chunks (fuel : nat) (l : list (string * string))
  : list (list (string * string)) :=
  match fuel with
  | O => []
  | S f => match l with
           | [] => []
           | _ => firstn 100 l :: chunks f (skipn 100 l)
           end
  end.




End FeedClient.

(** ** Further depth manager operations ([market_data/depth_manager.py]) *)
Module ManagerOps.
Import Assembler Manager.


(** [get_depth_data] *)
Definition get_depth_data (m : MarketDepthManager) (security_id : string)
  : option MarketDepth20Response :=
  depth_data m !! security_id.

(** [get_all_subscribed_securities] (as a set of keys). *)
Definition get_all_subscribed_securities (m : MarketDepthManager) : gset string :=
  dom (depth_data m).

(** [disconnect]: the client's own [disconnect] catches its errors, then
    [ws_client] is dropped and the three stores are cleared. *)
Definition disconnect (m : MarketDepthManager) : MarketDepthManager :=
  {| ws_client := None; depth_data := ∅; subscribers := ∅;
     analysis_cache := ∅; max_subscriptions := max_subscriptions m |}.

End ManagerOps.

(** ** Further analyzer computations ([analysis/depth_analyzer.py]) *)
Module AnalysisOps.
Import Analysis.

Local Open Scope Q_scope.

(** The order-flow imbalance computed in [analyze_market_microstructure]. *)
Definition order_flow_imbalance_of (bid ask : list Level) : Q :=
  let total_bid_qty := sum_qty bid in
  let total_ask_qty := sum_qty ask in
  let total_qty := total_bid_qty + total_ask_qty in
  if Qlt_bool 0 total_qty then (total_bid_qty - total_ask_qty) / total_qty else 0.

(** [[f(p[i], p[i+1]) for i in range(len(p)-1)]] *)
Fixpoint adjacent_gaps (f : Q -> Q -> Q) (ps : list Q) : list Q :=
  match ps with
  | a :: ((b :: _) as rest) => f a b :: adjacent_gaps f rest
  | _ => []
  end.

(** [max] and [min] of a non-empty list. *)
Definition list_max (x : Q) (xs : list Q) : Q := fold_left Qmax xs x.
Definition list_min (x : Q) (xs : list Q) : Q := fold_left Qmin xs x.

Definition sum_q (l : list Q) : Q := fold_left Qplus l 0.

(** [1.0 - (max(gaps) - min(gaps)) / avg_gap if avg_gap > 0 else 1.0] *)
Definition consistency (g0 : Q) (gs : list Q) : Q :=
  let avg := sum_q (g0 :: gs) / len_q (g0 :: gs) in
  if Qlt_bool 0 avg then 1 - (list_max g0 gs - list_min g0 gs) / avg else 1.

(** [_calculate_market_efficiency] *)
Definition _calculate_market_efficiency (bid ask : list Level) : Q :=
  match bid, ask with
  | [], _ | _, [] => 50
  | _, _ =>
      let bid_gaps := adjacent_gaps (fun a b => Qabs (a - b)) (map price bid) in
      let ask_gaps := adjacent_gaps (fun a b => Qabs (b - a)) (map price ask) in
      let efficiency :=
        match bid_gaps, ask_gaps with
        | b0 :: bs, a0 :: as_ => (consistency b0 bs + consistency a0 as_) / 2 * 100
        | _, _ => 50
        end in
      Qmax 0 (Qmin efficiency 100)
  end.


(** [(price, quantity, side)] entries of [_calculate_market_impact_curve]. *)
Definition Entry : Type := Q * Z * string.

Definition entry_price (e : Entry) : Q := fst (fst e).
Definition entry_qty (e : Entry) : Z := snd (fst e).

(** [list.sort(key=lambda x: x[0])] is stable: an entry goes after every
    entry with a price not above its own. *)
Fixpoint insert_by_price (x : Entry) (l : list Entry) : list Entry :=
  match l with
  | [] => [x]
  | y :: r => if Qle_bool (entry_price y) (entry_price x)
              then y :: insert_by_price x r else x :: y :: r
  end.

Definition sort_by_price (l : list Entry) : list Entry :=
  fold_left (fun acc x => insert_by_price x acc) l [].

(** The [for price, quantity, side in all_levels] loop. *)
Fixpoint curve_loop (base_price : Q) (cumulative_qty : Z) (l : list Entry)
  : list (Z * Q) :=
  match l with
  | [] => []
  | e :: r =>
      let cq := (cumulative_qty + entry_qty e)%Z in
      let impact := if Qlt_bool 0 base_price
                    then Qabs (entry_price e - base_price) / base_price else 0 in
      (cq, impact) :: curve_loop base_price cq r
  end.

(** [_calculate_market_impact_curve] *)
Definition _calculate_market_impact_curve (bid ask : list Level) : list (Z * Q) :=
  let all_levels :=
    sort_by_price (map (fun l => (price l, Z.of_N (quantity l), "bid"%string)) bid
                   ++ map (fun l => (price l, Z.of_N (quantity l), "ask"%string)) ask) in
  match all_levels with
  | [] => []
  | e0 :: _ =>
      let base_price := entry_price (nth (Nat.div (length all_levels) 2) all_levels e0) in
      curve_loop base_price 0 all_levels
  end.

(** The [for i in range(1, len(impact_curve))] search. *)
Fixpoint first_jump (prev : Z * Q) (rest : list (Z * Q)) : option Z :=
  match rest with
  | [] => None
  | cur :: r => if Qlt_bool (snd prev * (3 # 2)) (snd cur) then Some (fst prev)
                else first_jump cur r
  end.

(** [_calculate_optimal_order_size]; [int(total_qty * 0.25)] truncates
    toward zero. *)
Definition _calculate_optimal_order_size (impact_curve : list (Z * Q)) : Z :=
  match impact_curve with
  | [] => 0
  | p :: r =>
      match first_jump p r with
      | Some q => q
      | None => Z.quot (fst (List.last (p :: r) p)) 4
      end
  end.

End AnalysisOps.

(** ** Feed frames for the round trips *)
Module WireFeed.
Import Wire.

(** A ticker/quote feed frame: 8-byte header, then the payload. *)
Definition feed_frame (code seg sid : Z) (payload : list byte) : list byte :=
  be_bytes 1 code ++ be_bytes 2 (Z.of_nat (8 + length payload))
  ++ be_bytes 1 seg ++ be_bytes 4 sid ++ payload.

(** A 16-byte depth record fits its fields (8, 4 and 4 bytes). *)
Definition record_fits (r : Z * Z * Z) : bool :=
  let '(p, q, o) := r in
  (0 <=? p) && (p <? 2 ^ 64) && (0 <=? q) && (q <? 2 ^ 32)
  && (0 <=? o) && (o <? 2 ^ 32).

(** The level a record stands for. *)
Definition decoded_level (r : Z * Z * Z) : Depth.MarketDepthLevel :=
  let '(p, q, o) := r in
  {| Depth.price := p; Depth.quantity := q; Depth.orders := o |}.

End WireFeed.

(** * Properties *)

(** ** Decoders *)
Module DecoderFacts.
Import Depth.

Lemma length_slice {A} (l : list A) (i j : nat) :
  length (slice l i j) = Nat.min (j - i) (length l - i).
Proof. unfold slice. rewrite length_take, length_drop. reflexivity. Qed.

Lemma unpack_len n bs v : unpack n bs = Ok v -> length bs = n.
Proof.
  unfold unpack. destruct (Nat.eqb_spec (length bs) n); [auto | discriminate].
Qed.

Lemma unpack_raise_len n bs e : unpack n bs = Raise e -> length bs <> n.
Proof.
  unfold unpack. destruct (Nat.eqb_spec (length bs) n); [discriminate | auto].
Qed.

Lemma unpack_slice_ok n (l : list byte) i j :
  j = (i + n)%nat -> (j <= length l)%nat ->
  unpack n (slice l i j) = Ok (be_value (slice l i j)).
Proof.
  intros -> Hj. unfold unpack.
  rewrite length_slice. replace (Nat.min (i + n - i) (length l - i)) with n by lia.
  rewrite Nat.eqb_refl. reflexivity.
Qed.

Ltac unfold_unpacks := unfold unpack_H, unpack_I, unpack_f, unpack_d in *.

(** Run through a chain of [let*]-bound unpacks, case by case. *)
Ltac chase :=
  repeat match goal with
  | |- context [bind (unpack ?n ?bs) _] =>
      let E := fresh "E" in destruct (unpack n bs) eqn:E; cbn [bind raised]
  end.

Ltac short_slice :=
  match goal with
  | E : unpack _ (slice _ _ _) = Ok _ |- _ =>
      apply unpack_len in E; rewrite length_slice in E
  | E : unpack _ (slice _ _ _) = Raise _ |- _ =>
      apply unpack_raise_len in E; rewrite length_slice in E
  end.

Lemma depth_levels_loop_ok (payload : list byte) (f : nat) : forall i,
  ((i + f) * 16 <= length payload)%nat ->
  depth_levels_loop payload i f = Ok (map (wire_level payload) (seq i f)).
Proof.
  induction f as [|f IH]; intros i Hlen; [reflexivity|].
  cbn [depth_levels_loop]. unfold_unpacks.
  rewrite (unpack_slice_ok 8 payload (i * 16) (i * 16 + 8)) by lia. cbn [bind].
  rewrite (unpack_slice_ok 4 payload (i * 16 + 8) (i * 16 + 12)) by lia. cbn [bind].
  rewrite (unpack_slice_ok 4 payload (i * 16 + 12) (i * 16 + 16)) by lia. cbn [bind].
  rewrite IH by lia. reflexivity.
Qed.

Lemma parse_side_depth_spec sd payload sid seg now :
  _parse_side_depth sd payload sid seg now =
  if Nat.ltb (length payload) 320 then Ok None
  else Ok (Some {| levels := map (wire_level payload) (seq 0 20); side := sd;
                   security_id := sid; exchange_segment := seg;
                   timestamp := now |}).
Proof.
  unfold _parse_side_depth. destruct (Nat.ltb_spec (length payload) 320); [auto|].
  rewrite depth_levels_loop_ok by lia. reflexivity.
Qed.

Lemma opt_store_ok mk r :
  opt_store mk (Ok r) = Ok (match r with Some d => mk d | None => NoFrame end).
Proof. reflexivity. Qed.

(** The header fields of a depth frame of at least 12 bytes decode. *)
Lemma parse_depth_message_header (msg : list byte) now :
  (12 <= length msg)%nat ->
  _parse_depth_message msg now =
  (let payload := skipn 12 msg in
   let sid := str_of_Z (be_value (slice msg 4 8)) in
   let seg := _get_exchange_segment_name (be_value (slice msg 3 4)) in
   let code := be_value (slice msg 2 3) in
   if code =? BID_DATA then opt_store StoreBid (_parse_bid_depth payload sid seg now)
   else if code =? ASK_DATA then opt_store StoreAsk (_parse_ask_depth payload sid seg now)
   else if code =? DISCONNECT then
     let* _u := _handle_disconnect_message payload in Ok NoFrame
   else Ok NoFrame).
Proof.
  intros Hl. unfold _parse_depth_message.
  destruct (Nat.ltb_spec (length msg) 12); [lia|]. unfold_unpacks.
  rewrite (unpack_slice_ok 2 msg 0 2) by lia. cbn [bind].
  rewrite (unpack_slice_ok 4 msg 4 8) by lia. cbn [bind].
  rewrite (unpack_slice_ok 4 msg 8 12) by lia. cbn [bind].
  reflexivity.
Qed.

Lemma handle_disconnect_ok payload : _handle_disconnect_message payload = Ok tt.
Proof.
  unfold _handle_disconnect_message. destruct (Nat.leb_spec 2 (length payload)); [|auto].
  unfold_unpacks. rewrite (unpack_slice_ok 2 payload 0 2) by lia. reflexivity.
Qed.

Lemma ticker_raised p sid seg :
  raised (Feed._parse_ticker_packet p sid seg) = Nat.ltb (length p) 8.
Proof.
  unfold Feed._parse_ticker_packet. unfold_unpacks. chase;
    destruct (Nat.ltb_spec (length p) 8); auto; repeat short_slice; lia.
Qed.

Lemma quote_fields_raised p :
  raised (Feed._parse_quote_fields p) = Nat.ltb (length p) 42.
Proof.
  unfold Feed._parse_quote_fields. unfold_unpacks.
  destruct (Nat.ltb_spec (length p) 42) as [H|H]; chase; try reflexivity.
  all: first
    [ match goal with E : unpack 4 (slice _ 38 42) = Ok _ |- _ =>
        apply unpack_len in E; rewrite length_slice in E end; lia
    | match goal with E : unpack _ _ = Raise _ |- _ =>
        apply unpack_raise_len in E; rewrite length_slice in E end; lia ].
Qed.

Lemma quote_raised p sid seg :
  raised (Feed._parse_quote_packet p sid seg) = Nat.ltb (length p) 42.
Proof.
  unfold Feed._parse_quote_packet. rewrite <- (quote_fields_raised p).
  destruct (Feed._parse_quote_fields p); reflexivity.
Qed.

Lemma parse_binary_header (msg : list byte) :
  (8 <= length msg)%nat ->
  Feed._parse_binary_message msg =
  (let sid := str_of_Z (be_value (slice msg 4 8)) in
   let seg := _get_exchange_segment_name (be_value (slice msg 3 4)) in
   let payload := skipn 8 msg in
   let code := be_value (slice msg 0 1) in
   if code =? Feed.TICKER then
     let* p := Feed._parse_ticker_packet payload sid seg in Ok (Some p)
   else if code =? Feed.QUOTE then
     let* p := Feed._parse_quote_packet payload sid seg in Ok (Some p)
   else if code =? Feed.FULL then
     let* p := Feed._parse_full_packet payload sid seg in Ok (Some p)
   else Ok None).
Proof.
  intros Hl. unfold Feed._parse_binary_message.
  destruct (Nat.ltb_spec (length msg) 8); [lia|]. unfold_unpacks.
  rewrite (unpack_slice_ok 2 msg 1 3) by lia. cbn [bind].
  rewrite (unpack_slice_ok 4 msg 4 8) by lia. cbn [bind].
  reflexivity.
Qed.

Lemma raised_bind_some {A B} (m : result A) (f : A -> B) :
  raised (let* p := m in Ok (f p)) = raised m.
Proof. destruct m; reflexivity. Qed.

End DecoderFacts.

Module DecoderClaims.
Import Depth DecoderFacts.

(** C3 (as amended).  Depth feed: decoding never raises, and a frame
    shorter than its 12-byte header, a frame whose response code is
    neither bid (41) nor ask (51), or a frame whose payload is shorter
    than the 320 bytes of a side yields no side snapshot.  Ticker/quote
    feed: a frame under 8 bytes or with a response code other than 2, 4
    and 8 yields no packet without error; a ticker frame (code 2) whose
    payload is shorter than 8 bytes, or a quote frame (code 4) whose
    payload is shorter than 42 bytes, makes [_parse_binary_message] raise
    [struct.error]; [_on_message] catches it, logs one line and hands no
    packet on, so that frame is dropped and the stream goes on. *)
Theorem short_frames_dropped :
  (forall msg now, exists d, _parse_depth_message msg now = Ok d) /\
  (forall msg now,
     (length msg < 12
      \/ (be_value (slice msg 2 3) <> BID_DATA /\ be_value (slice msg 2 3) <> ASK_DATA)
      \/ length (skipn 12 msg) < 320)%nat ->
     _parse_depth_message msg now = Ok NoFrame) /\
  (forall msg, (8 <= length msg)%nat -> be_value (slice msg 0 1) = Feed.TICKER ->
     raised (Feed._parse_binary_message msg) = Nat.ltb (length msg) 16) /\
  (forall msg, (8 <= length msg)%nat -> be_value (slice msg 0 1) = Feed.QUOTE ->
     raised (Feed._parse_binary_message msg) = Nat.ltb (length msg) 50) /\
  (forall msg,
     (length msg < 8)%nat
     \/ (be_value (slice msg 0 1) <> Feed.TICKER /\ be_value (slice msg 0 1) <> Feed.QUOTE
         /\ be_value (slice msg 0 1) <> Feed.FULL) ->
     Feed._parse_binary_message msg = Ok None) /\
  (forall msg, raised (Feed._parse_binary_message msg) = true ->
     fst (Feed._on_message msg) = None /\ length (snd (Feed._on_message msg)) = 1%nat).
Proof.
  split; [|split; [|split; [|split; [|split]]]].
  - intros msg now. destruct (Nat.ltb_spec (length msg) 12) as [Hs|Hl].
    + exists NoFrame. unfold _parse_depth_message.
      destruct (Nat.ltb_spec (length msg) 12); [reflexivity | lia].
    + rewrite parse_depth_message_header by lia. cbv zeta.
      unfold _parse_bid_depth, _parse_ask_depth.
      rewrite !parse_side_depth_spec.
      destruct (Nat.ltb (length (skipn 12 msg)) 320);
      destruct (be_value (slice msg 2 3) =? BID_DATA);
      destruct (be_value (slice msg 2 3) =? ASK_DATA);
      destruct (be_value (slice msg 2 3) =? DISCONNECT);
      try rewrite handle_disconnect_ok; eexists; reflexivity.
  - intros msg now H. destruct (Nat.ltb_spec (length msg) 12) as [Hs|Hl].
    + unfold _parse_depth_message.
      destruct (Nat.ltb_spec (length msg) 12); [reflexivity | lia].
    + rewrite parse_depth_message_header by lia. cbv zeta.
      unfold _parse_bid_depth, _parse_ask_depth.
      rewrite !parse_side_depth_spec.
      destruct H as [H|[[H1 H2]|H]]; [lia| |].
      * apply Z.eqb_neq in H1, H2. rewrite H1, H2.
        destruct (be_value (slice msg 2 3) =? DISCONNECT); [rewrite handle_disconnect_ok|]; reflexivity.
      * apply Nat.ltb_lt in H. rewrite H.
        destruct (be_value (slice msg 2 3) =? BID_DATA); [reflexivity|].
        destruct (be_value (slice msg 2 3) =? ASK_DATA); [reflexivity|].
        destruct (be_value (slice msg 2 3) =? DISCONNECT); [rewrite handle_disconnect_ok|]; reflexivity.
  - intros msg Hl Hc. rewrite parse_binary_header by exact Hl. cbv zeta.
    rewrite Hc, Z.eqb_refl, raised_bind_some, ticker_raised, length_drop.
    destruct (Nat.ltb_spec (length msg - 8) 8), (Nat.ltb_spec (length msg) 16);
      auto; lia.
  - intros msg Hl Hc. rewrite parse_binary_header by exact Hl. cbv zeta.
    rewrite Hc. replace (Feed.QUOTE =? Feed.TICKER) with false by reflexivity.
    rewrite Z.eqb_refl, raised_bind_some, quote_raised, length_drop.
    destruct (Nat.ltb_spec (length msg - 8) 42), (Nat.ltb_spec (length msg) 50);
      auto; lia.
  - intros msg [H|(H1 & H2 & H3)].
    + unfold Feed._parse_binary_message. apply Nat.ltb_lt in H. rewrite H. reflexivity.
    + destruct (Nat.ltb_spec (length msg) 8) as [H|H].
      * unfold Feed._parse_binary_message. apply Nat.ltb_lt in H. rewrite H. reflexivity.
      * rewrite parse_binary_header by lia. cbv zeta.
        apply Z.eqb_neq in H1, H2, H3. rewrite H1, H2, H3. reflexivity.
  - intros msg H. unfold Feed._on_message.
    destruct (Feed._parse_binary_message msg) as [[p|]|e]; simpl in *;
      [discriminate | discriminate | auto].
Qed.

(** C7 (as amended).  A side snapshot handed to the assembler is decoded
    from a payload of at least 320 bytes and has exactly 20 levels: the
    first twenty 16-byte records of the payload in wire order, with no
    reordering by price (and, by the previous clause, no padding: a
    shorter payload yields no side at all). *)
Theorem side_snapshot_wire_levels (msg : list byte) (now : Q) (d : MarketDepth20Level) :
  _parse_depth_message msg now = Ok (StoreBid d)
  \/ _parse_depth_message msg now = Ok (StoreAsk d) ->
  (320 <= length (skipn 12 msg))%nat /\ length (levels d) = 20%nat
  /\ levels d = map (wire_level (skipn 12 msg)) (seq 0 20).
Proof.
  intros H.
  assert (Hl : (12 <= length msg)%nat).
  { destruct (Nat.ltb_spec (length msg) 12) as [Hs|]; [|auto].
    unfold _parse_depth_message in H. apply Nat.ltb_lt in Hs. rewrite Hs in H.
    destruct H; discriminate. }
  rewrite parse_depth_message_header in H by exact Hl. cbv zeta in H.
  unfold _parse_bid_depth, _parse_ask_depth in H. rewrite !parse_side_depth_spec in H.
  revert H.
  destruct (Nat.ltb_spec (length (skipn 12 msg)) 320) as [Hs|Hs];
  destruct (be_value (slice msg 2 3) =? BID_DATA);
  destruct (be_value (slice msg 2 3) =? ASK_DATA);
  destruct (be_value (slice msg 2 3) =? DISCONNECT);
  rewrite ?handle_disconnect_ok; cbv [opt_store bind];
  intros [H|H]; try discriminate H;
  injection H as <-; cbn [levels];
  repeat split; auto.
Qed.

End DecoderClaims.

(** ** Assembler *)
Module AssemblerFacts.
Import Depth Assembler DecoderFacts.

(** What a buffered side of key [k] looks like at time [t]. *)
Definition side_ok (k sd : string) (t : Q) (s : MarketDepth20Level) : Prop :=
  security_id s = k /\ side s = sd /\ (timestamp s <= t)%Q.

Definition Inv (t : Q) (bufs : Buffers) : Prop :=
  forall k b, bufs !! k = Some b ->
    (forall s, buf_bid b = Some s -> side_ok k "BID" t s)
    /\ (forall s, buf_ask b = Some s -> side_ok k "ASK" t s).

Definition snapshot_ok (r : MarketDepth20Response) : Prop :=
  security_id (bid_depth r) = r_security_id r
  /\ security_id (ask_depth r) = r_security_id r
  /\ side (bid_depth r) = "BID" /\ side (ask_depth r) = "ASK"
  /\ (timestamp (bid_depth r) <= r_timestamp r)%Q
  /\ (timestamp (ask_depth r) <= r_timestamp r)%Q
  /\ (r_exchange_segment r = exchange_segment (bid_depth r)
      \/ r_exchange_segment r = exchange_segment (ask_depth r)).

Lemma side_ok_mono k sd t t' s :
  (t <= t')%Q -> side_ok k sd t s -> side_ok k sd t' s.
Proof.
  unfold side_ok. intros Ht (H1 & H2 & H3). repeat split; auto.
  eapply Qle_trans; eauto.
Qed.

Lemma Inv_mono t t' bufs : (t <= t')%Q -> Inv t bufs -> Inv t' bufs.
Proof.
  intros Ht HI k b Hk. destruct (HI k b Hk) as [Hb Ha].
  split; intros s Hs; eapply side_ok_mono; eauto.
Qed.

Lemma Inv_empty t : Inv t ∅.
Proof. intros k b Hk. rewrite lookup_empty in Hk. discriminate. Qed.

Lemma window_check_passes (t : Q) : Qle_bool (t - t) buffer_timeout = true.
Proof.
  apply Qle_bool_iff. unfold buffer_timeout.
  destruct t as [n d]. unfold Qle, Qminus, Qplus, Qopp; cbn. nia.
Qed.

(** The window test of [_store_depth_data] compares [current_time] with
    the timestamp it has just written: once both sides are buffered, a
    response is always emitted. *)
Lemma store_emits_when_paired bufs sid k d t now :
  let b0 := default empty_buffer (bufs !! sid) in
  match k with KBid => buf_ask b0 | KAsk => buf_bid b0 end <> None ->
  exists r, _store_depth_data bufs sid k d t now = (delete sid (<[sid := set_timestamp t (set_side k d b0)]> bufs), Some r).
Proof.
  cbv zeta. intros H. unfold _store_depth_data.
  destruct k; cbn [set_side set_timestamp buf_bid buf_ask buf_timestamp].
  - destruct (buf_ask _); [|congruence]. rewrite window_check_passes. eauto.
  - destruct (buf_bid _); [|congruence]. rewrite window_check_passes. eauto.
Qed.

Lemma store_step bufs t t' k d o bufs' :
  Inv t bufs -> (t <= t')%Q ->
  side_ok (security_id d) (match k with KBid => "BID" | KAsk => "ASK" end) t' d ->
  _store_depth_data bufs (security_id d) k d t' t' = (bufs', o) ->
  Inv t' bufs' /\ (forall r, o = Some r -> snapshot_ok r).
Proof.
  intros HI Ht Hd Hst. apply (Inv_mono _ t') in HI; [|exact Ht].
  unfold _store_depth_data in Hst.
  set (sid := security_id d) in *.
  destruct (bufs !! sid) as [b|] eqn:Eb; cbn [default] in Hst; unfold id in Hst.
  - destruct (HI sid b Eb) as [Hb Ha].
    destruct k; cbn [set_side set_timestamp buf_bid buf_ask buf_timestamp] in Hst;
      rewrite ?window_check_passes in Hst.
    + destruct (buf_ask b) as [ad|] eqn:Ea; rewrite ?window_check_passes in Hst; injection Hst as <- <-.
      * split.
        -- intros k' b' Hk'. destruct (decide (k' = sid)) as [->|Hne].
           ++ rewrite lookup_delete_eq in Hk'. discriminate.
           ++ rewrite lookup_delete_ne, lookup_insert_ne in Hk' by congruence.
              exact (HI k' b' Hk').
        -- intros r [= <-]. destruct Hd as (Hd1 & Hd2 & Hd3).
           destruct (Ha ad eq_refl) as (Ha1 & Ha2 & Ha3).
           unfold snapshot_ok; cbn. repeat split; auto.
      * split; [|discriminate].
        intros k' b' Hk'. destruct (decide (k' = sid)) as [->|Hne].
        -- rewrite lookup_insert_eq in Hk'. injection Hk' as <-. cbn.
           split; [intros s [= <-]; exact Hd | intros s Hs; rewrite ?Ea in Hs; discriminate].
        -- rewrite lookup_insert_ne in Hk' by congruence. exact (HI k' b' Hk').
    + destruct (buf_bid b) as [bd|] eqn:Ea; rewrite ?window_check_passes in Hst; injection Hst as <- <-.
      * split.
        -- intros k' b' Hk'. destruct (decide (k' = sid)) as [->|Hne].
           ++ rewrite lookup_delete_eq in Hk'. discriminate.
           ++ rewrite lookup_delete_ne, lookup_insert_ne in Hk' by congruence.
              exact (HI k' b' Hk').
        -- intros r [= <-]. destruct Hd as (Hd1 & Hd2 & Hd3).
           destruct (Hb bd eq_refl) as (Hb1 & Hb2 & Hb3).
           unfold snapshot_ok; cbn. repeat split; auto.
      * split; [|discriminate].
        intros k' b' Hk'. destruct (decide (k' = sid)) as [->|Hne].
        -- rewrite lookup_insert_eq in Hk'. injection Hk' as <-. cbn.
           split; [intros s Hs; rewrite ?Ea in Hs; discriminate | intros s [= <-]; exact Hd].
        -- rewrite lookup_insert_ne in Hk' by congruence. exact (HI k' b' Hk').
  - destruct k; cbn [set_side set_timestamp buf_bid buf_ask buf_timestamp empty_buffer] in Hst;
      injection Hst as <- <-; (split; [|discriminate]);
      intros k' b' Hk'; destruct (decide (k' = sid)) as [->|Hne].
    + rewrite lookup_insert_eq in Hk'. injection Hk' as <-. cbn.
      split; [intros s [= <-]; exact Hd | discriminate].
    + rewrite lookup_insert_ne in Hk' by congruence. exact (HI k' b' Hk').
    + rewrite lookup_insert_eq in Hk'. injection Hk' as <-. cbn.
      split; [discriminate | intros s [= <-]; exact Hd].
    + rewrite lookup_insert_ne in Hk' by congruence. exact (HI k' b' Hk').
Qed.

End AssemblerFacts.

Module AssemblerRun.
Import Depth Assembler DecoderFacts AssemblerFacts.

Lemma parse_depth_store msg now d :
  (_parse_depth_message msg now = Ok (StoreBid d) ->
     side d = "BID" /\ timestamp d = now /\ security_id d = security_id d)
  /\ (_parse_depth_message msg now = Ok (StoreAsk d) ->
     side d = "ASK" /\ timestamp d = now /\ security_id d = security_id d).
Proof.
  destruct (Nat.ltb_spec (length msg) 12) as [Hs|Hl].
  - unfold _parse_depth_message. apply Nat.ltb_lt in Hs. rewrite Hs.
    split; discriminate.
  - rewrite parse_depth_message_header by exact Hl. cbv zeta.
    unfold _parse_bid_depth, _parse_ask_depth. rewrite !parse_side_depth_spec.
    destruct (Nat.ltb (length (skipn 12 msg)) 320);
    destruct (be_value (slice msg 2 3) =? BID_DATA);
    destruct (be_value (slice msg 2 3) =? ASK_DATA);
    destruct (be_value (slice msg 2 3) =? DISCONNECT);
    rewrite ?handle_disconnect_ok; cbv [opt_store bind];
    split; intros H; try discriminate H; injection H as <-; auto.
Qed.

Lemma on_depth_message_step bufs t t1 msg bufs1 o :
  Inv t bufs -> (t <= t1)%Q ->
  on_depth_message bufs t1 msg = Ok (bufs1, o) ->
  Inv t1 bufs1 /\ (forall r, o = Some r -> snapshot_ok r).
Proof.
  intros HI Ht H. unfold on_depth_message in H.
  destruct (_parse_depth_message msg t1) as [dec|e] eqn:Ed; [|discriminate].
  cbn [bind] in H. destruct dec as [d|d|]; injection H as H.
  - destruct (proj1 (parse_depth_store msg t1 d) Ed) as (Hs & Ht1 & _).
    eapply store_step; [exact HI | exact Ht | | exact H].
    unfold side_ok. rewrite Ht1. repeat split; auto. apply Qle_refl.
  - destruct (proj2 (parse_depth_store msg t1 d) Ed) as (Hs & Ht1 & _).
    eapply store_step; [exact HI | exact Ht | | exact H].
    unfold side_ok. rewrite Ht1. repeat split; auto. apply Qle_refl.
  - subst. split; [eapply Inv_mono; eauto | intros r Hr; discriminate].
Qed.

Lemma run_snapshots_ok evs : forall bufs t,
  Inv t bufs -> monotone_from t (map fst evs) = true ->
  forall r, In r (snd (run bufs evs)) -> snapshot_ok r.
Proof.
  induction evs as [|[t1 msg] rest IH]; intros bufs t HI Hm r Hr; [destruct Hr|].
  cbn [map fst monotone_from] in Hm. apply andb_true_iff in Hm as [Ht Hm].
  apply Qle_bool_iff in Ht.
  cbn [run] in Hr.
  destruct (on_depth_message bufs t1 msg) as [[bufs1 o]|e] eqn:E.
  - destruct (on_depth_message_step _ _ _ _ _ _ HI Ht E) as [HI1 Ho].
    destruct (run bufs1 rest) as [bufs2 outs] eqn:Er. cbn [snd] in Hr.
    destruct o as [r0|].
    + destruct Hr as [<-|Hr]; [apply Ho; reflexivity|].
      eapply IH; eauto. rewrite Er. exact Hr.
    + eapply IH; eauto. rewrite Er. exact Hr.
  - destruct (run bufs rest) as [bufs2 outs] eqn:Er. cbn [snd] in Hr.
    eapply IH; [eapply Inv_mono; eauto | exact Hm |]. rewrite Er. exact Hr.
Qed.


(** A snapshot emitted while handling one frame comes from that frame:
    the decoded side is one of its two sides, and it carries that
    side's segment and the frame's time. *)
Lemma on_depth_message_emits bufs t msg bufs' r :
  on_depth_message bufs t msg = Ok (bufs', Some r) ->
  exists d, r_timestamp r = t /\ r_exchange_segment r = exchange_segment d
    /\ ((_parse_depth_message msg t = Ok (StoreBid d) /\ bid_depth r = d)
        \/ (_parse_depth_message msg t = Ok (StoreAsk d) /\ ask_depth r = d)).
Proof.
  intros H. unfold on_depth_message in H.
  destruct (_parse_depth_message msg t) as [dec|e] eqn:Ed; [|discriminate].
  cbn [bind] in H. destruct dec as [d|d|]; [| |discriminate]; injection H as H;
    exists d; unfold _store_depth_data in H;
    cbn [set_side set_timestamp buf_bid buf_ask buf_timestamp] in H.
  - destruct (buf_ask _); [|discriminate]. destruct (Qle_bool _ _); [|discriminate].
    injection H as _ <-. cbn. auto.
  - destruct (buf_bid _); [|discriminate]. destruct (Qle_bool _ _); [|discriminate].
    injection H as _ <-. cbn. auto.
Qed.

Lemma run_fst_cons bufs t msg rest :
  fst (run bufs ((t, msg) :: rest))
  = fst (run (match on_depth_message bufs t msg with
              | Ok r => fst r | Raise _ => bufs end) rest).
Proof.
  cbn [run]. destruct (on_depth_message bufs t msg) as [[b o]|e];
    cbn [fst]; destruct (run _ rest); reflexivity.
Qed.

(** Every snapshot of a run is emitted while handling one of its
    frames, from the buffers the frames before it left. *)
Lemma run_emitted evs : forall bufs r, In r (snd (run bufs evs)) ->
  exists pre t msg post bufs',
    evs = pre ++ (t, msg) :: post
    /\ on_depth_message (fst (run bufs pre)) t msg = Ok (bufs', Some r).
Proof.
  induction evs as [|[t1 msg1] rest IH]; intros bufs r Hr; [destruct Hr|].
  assert (Hstep : forall b1, In r (snd (run b1 rest)) ->
            fst (run bufs [(t1, msg1)]) = b1 ->
            exists pre t msg post bufs',
              (t1, msg1) :: rest = pre ++ (t, msg) :: post
              /\ on_depth_message (fst (run bufs pre)) t msg = Ok (bufs', Some r)).
  { intros b1 Hin Hb1. destruct (IH b1 r Hin) as (pre & t & msg & post & bufs' & Heq & Hon).
    exists ((t1, msg1) :: pre), t, msg, post, bufs'. split; [rewrite Heq; reflexivity|].
    rewrite run_fst_cons. rewrite run_fst_cons in Hb1. cbn [run fst] in Hb1.
    rewrite Hb1. exact Hon. }
  cbn [run] in Hr.
  destruct (on_depth_message bufs t1 msg1) as [[b1 o]|e] eqn:E.
  - destruct (run b1 rest) as [b2 outs] eqn:Er. cbn [snd] in Hr.
    assert (Hf : fst (run bufs [(t1, msg1)]) = b1)
      by (rewrite run_fst_cons, E; reflexivity).
    destruct o as [r0|].
    + destruct Hr as [<-|Hr].
      * exists [], t1, msg1, rest, b1. split; [reflexivity | exact E].
      * apply (Hstep b1); [rewrite Er; exact Hr | exact Hf].
    + apply (Hstep b1); [rewrite Er; exact Hr | exact Hf].
  - destruct (run bufs rest) as [b2 outs] eqn:Er. cbn [snd] in Hr.
    apply (Hstep bufs); [rewrite Er; exact Hr|].
    rewrite run_fst_cons, E. reflexivity.
Qed.

End AssemblerRun.

Module DecoderExamples.
Import Depth DecoderClaims.

(** The side decoded from [Wire.bid_frame] (a dummy side if the frame
    did not decode to a bid). *)
Definition bid_frame_side : MarketDepth20Level :=
  match _parse_depth_message Wire.bid_frame 0 with
  | Ok (StoreBid d) => d
  | _ => {| levels := []; side := ""; security_id := ""; exchange_segment := "";
            timestamp := 0 |}
  end.

(** Witness for C7: the bid frame of instrument 7 decodes to a side, which
    has its 20 levels in wire order. *)
Lemma side_snapshot_wire_levels_witness :
  _parse_depth_message Wire.bid_frame 0 = Ok (StoreBid bid_frame_side)
  /\ (320 <= length (skipn 12 Wire.bid_frame))%nat
  /\ length (levels bid_frame_side) = 20%nat
  /\ levels bid_frame_side = map (wire_level (skipn 12 Wire.bid_frame)) (seq 0 20).
Proof.
  assert (E : _parse_depth_message Wire.bid_frame 0 = Ok (StoreBid bid_frame_side))
    by (vm_compute; reflexivity).
  split; [exact E|].
  exact (side_snapshot_wire_levels Wire.bid_frame 0 bid_frame_side (or_introl E)).
Defined.

(** C7 counterexample: a well-formed bid frame whose first level is
    priced 1.0 and second 2.0 decodes to a BID side whose prices rise
    from level 0 to level 1: the decoder keeps wire order and does not
    order bids by descending price. *)
Lemma bid_side_not_descending :
  match _parse_depth_message Wire.rising_bid_frame 0 with
  | Ok (StoreBid d) =>
      match levels d with
      | l0 :: l1 :: _ =>
          match f64_value (price l0), f64_value (price l1) with
          | Some v0, Some v1 => side d = "BID" /\ (v0 < v1)%Q
          | _, _ => False
          end
      | _ => False
      end
  | _ => False
  end.
Proof. vm_compute. split; reflexivity. Qed.

End DecoderExamples.

Module AssemblerClaims.
Import Depth Assembler AssemblerFacts AssemblerRun.

(** C1 (code defect).  Bid at t = 0 and ask at t = 0.5 s: one snapshot,
    buffer of the instrument cleared.  Bid at t = 0 and ask at t = 2 s
    (gap above the 1 s window): the stale bid is still paired and one
    snapshot is emitted, carrying sides captured at 0 and at 2, because
    the window test compares [current_time] with the timestamp it has
    just written. *)
Theorem stale_bid_still_paired :
  (let '(bufs, out) := run ∅ [(0%Q, Wire.bid_frame); ((1 # 2)%Q, Wire.ask_frame)] in
   map_to_list bufs = [] /\ length out = 1%nat)
  /\
  (let '(bufs, out) := run ∅ [(0%Q, Wire.bid_frame); (2%Q, Wire.ask_frame)] in
   map_to_list bufs = [] /\ length out = 1%nat
   /\ map (fun r => (timestamp (bid_depth r), timestamp (ask_depth r))) out
      = [(0%Q, 2%Q)]).
Proof. split; vm_compute; repeat split; reflexivity. Qed.

(** C2 (as amended).  For every sequence of depth frames arriving at
    non-decreasing times, starting from empty buffers, every snapshot
    handed to [on_depth_update] pairs a BID side and an ASK side that
    both carry the snapshot's instrument id, and its timestamp is not
    earlier than either side's capture time.  The snapshot is emitted
    while one frame of the sequence is handled (from the buffers the
    earlier frames left); that frame decodes to one of the snapshot's
    two sides, the one that completed it, and the snapshot carries that
    side's segment and the frame's time. *)
Theorem emitted_snapshots_consistent (evs : list (Q * list byte)) :
  monotone (map fst evs) = true ->
  forall r, In r (snd (run ∅ evs)) ->
    security_id (bid_depth r) = r_security_id r
    /\ security_id (ask_depth r) = r_security_id r
    /\ side (bid_depth r) = "BID" /\ side (ask_depth r) = "ASK"
    /\ (timestamp (bid_depth r) <= r_timestamp r)%Q
    /\ (timestamp (ask_depth r) <= r_timestamp r)%Q
    /\ exists pre t msg post bufs' d,
         evs = pre ++ (t, msg) :: post
         /\ on_depth_message (fst (run ∅ pre)) t msg = Ok (bufs', Some r)
         /\ r_timestamp r = t
         /\ ((_parse_depth_message msg t = Ok (StoreBid d) /\ bid_depth r = d)
             \/ (_parse_depth_message msg t = Ok (StoreAsk d) /\ ask_depth r = d))
         /\ r_exchange_segment r = exchange_segment d.
Proof.
  intros Hm r Hr.
  assert (Hok : snapshot_ok r).
  { destruct evs as [|[t0 msg0] rest]; [destruct Hr|].
    apply (run_snapshots_ok ((t0, msg0) :: rest) ∅ t0 (Inv_empty t0)); [|exact Hr].
    cbn [map fst monotone_from]. cbn [map fst monotone] in Hm.
    rewrite Hm, andb_true_r. apply Qle_bool_iff, Qle_refl. }
  destruct Hok as (H1 & H2 & H3 & H4 & H5 & H6 & _).
  destruct (run_emitted evs ∅ r Hr) as (pre & t & msg & post & bufs' & Heq & Hon).
  destruct (on_depth_message_emits _ _ _ _ _ Hon) as (d & Ht & Hseg & Hd).
  do 6 (split; [assumption|]).
  exists pre, t, msg, post, bufs', d. auto.
Qed.

Definition pair_frames : list (Q * list byte) :=
  [(0%Q, Wire.bid_frame); ((1 # 2)%Q, Wire.ask_frame)].

(** Witness for C2: two frames half a second apart produce one snapshot,
    and the theorem applies to it. *)
Lemma emitted_snapshots_consistent_witness :
  monotone (map fst pair_frames) = true
  /\ length (snd (run ∅ pair_frames)) = 1%nat
  /\ (forall r, In r (snd (run ∅ pair_frames)) ->
        security_id (bid_depth r) = r_security_id r
        /\ security_id (ask_depth r) = r_security_id r
        /\ side (bid_depth r) = "BID" /\ side (ask_depth r) = "ASK"
        /\ (timestamp (bid_depth r) <= r_timestamp r)%Q
        /\ (timestamp (ask_depth r) <= r_timestamp r)%Q
        /\ exists pre t msg post bufs' d,
             pair_frames = pre ++ (t, msg) :: post
             /\ on_depth_message (fst (run ∅ pre)) t msg = Ok (bufs', Some r)
             /\ r_timestamp r = t
             /\ ((_parse_depth_message msg t = Ok (StoreBid d) /\ bid_depth r = d)
                 \/ (_parse_depth_message msg t = Ok (StoreAsk d) /\ ask_depth r = d))
             /\ r_exchange_segment r = exchange_segment d).
Proof.
  assert (Hm : monotone (map fst pair_frames) = true) by (vm_compute; reflexivity).
  split; [exact Hm|]. split; [vm_compute; reflexivity|].
  exact (emitted_snapshots_consistent pair_frames Hm).
Defined.

(** C2 counterexample: a bid of instrument 7 on NSE_EQ at t = 0 and an
    ask of instrument 7 on NSE_FNO at t = 0.5 s are paired into one
    snapshot whose two sides carry different segments (the buffers are
    keyed by security id alone). *)
Lemma snapshot_mixes_segments :
  match snd (run ∅ [(0%Q, Wire.bid_frame); ((1 # 2)%Q, Wire.ask_frame_fno)]) with
  | [r] => exchange_segment (bid_depth r) = "NSE_EQ"
           /\ exchange_segment (ask_depth r) = "NSE_FNO"
           /\ r_exchange_segment r = "NSE_FNO"
  | _ => False
  end.
Proof. vm_compute. repeat split; reflexivity. Qed.

End AssemblerClaims.

(** ** Analyzer *)
Module AnalysisFacts.
Import Analysis.

Local Open Scope Q_scope.

Lemma Qlt_bool_iff x y : Qlt_bool x y = true <-> x < y.
Proof.
  unfold Qlt_bool. rewrite negb_true_iff. split; intros H.
  - apply Qnot_le_lt. intros H'. apply Qle_bool_iff in H'. congruence.
  - destruct (Qle_bool y x) eqn:E; [|reflexivity].
    apply Qle_bool_iff in E. exfalso. exact (Qlt_not_le _ _ H E).
Qed.

Lemma qty_nonneg l : 0 <= qty l.
Proof. unfold qty, Qle; cbn. lia. Qed.

Lemma sum_qty_acc_nonneg (ls : list Level) : forall acc,
  0 <= acc -> 0 <= fold_left (fun acc l => acc + qty l) ls acc.
Proof.
  induction ls as [|l ls IH]; intros acc H; cbn; [exact H|].
  apply IH. rewrite <- (Qplus_0_r 0). apply Qplus_le_compat; [exact H | apply qty_nonneg].
Qed.

Lemma sum_qty_nonneg ls : 0 <= sum_qty ls.
Proof. apply sum_qty_acc_nonneg, Qle_refl. Qed.

(** A level never exceeds one and a half times its own quantity. *)
Lemma not_above_itself l : Qlt_bool (qty l * (3 # 2)) (qty l) = false.
Proof.
  destruct (Qlt_bool _ _) eqn:E; [|reflexivity].
  apply Qlt_bool_iff in E. exfalso. unfold qty, Qlt in E; cbn in E. lia.
Qed.

Lemma positive_mean_iff s : 0 <= s -> Qlt_bool 0 (s / 10) = negb (Qeq_bool s 0).
Proof.
  intros Hs. destruct s as [n d].
  destruct (Qlt_bool 0 _) eqn:E; destruct (Qeq_bool _ 0) eqn:F; try reflexivity.
  - apply Qlt_bool_iff in E. apply Qeq_bool_iff in F.
    unfold Qlt, Qeq, Qdiv, Qmult, Qinv in *; cbn in *. lia.
  - assert (HE : ~ 0 < (n # d) / 10) by (intros H; apply Qlt_bool_iff in H; congruence).
    assert (HF : ~ (n # d) == 0) by (intros H; apply Qeq_bool_iff in H; congruence).
    exfalso. unfold Qle, Qlt, Qeq, Qdiv, Qmult, Qinv in *; cbn in *. lia.
Qed.

Lemma filter_sublist {A} (f : A -> bool) (l : list A) : sublist (List.filter f l) l.
Proof.
  induction l as [|a l IH]; cbn; [constructor|].
  destruct (f a); [apply sublist_skip | apply sublist_cons]; exact IH.
Qed.

Lemma map_sublist {A B} (f : A -> B) (l1 l2 : list A) :
  sublist l1 l2 -> sublist (map f l1) (map f l2).
Proof.
  induction 1; cbn; [constructor | apply sublist_skip | apply sublist_cons]; assumption.
Qed.

Lemma firstn_sublist {A} n (l : list A) : sublist (firstn n l) l.
Proof.
  revert l; induction n as [|n IH]; intros [|a l]; cbn;
    [constructor | apply sublist_nil_l | constructor | apply sublist_skip, IH].
Qed.

Lemma firstn_min_length {A} k (l : list A) :
  firstn (Nat.min k (length l)) l = firstn k l.
Proof.
  destruct (Nat.le_total k (length l)).
  - rewrite Nat.min_l by exact H. reflexivity.
  - rewrite Nat.min_r by exact H. rewrite !take_ge by lia. reflexivity.
Qed.

(** The rule used for BUY (on asks) and SELL (on bids) never keeps the
    best level and looks at the two next levels only. *)
Lemma pick_sublist (l0 : Level) (rest : list Level) :
  sublist
    (firstn 3 (map price (List.filter (fun l => Qlt_bool (qty l0 * (3 # 2)) (qty l))
       (firstn (Nat.min 3 (length (l0 :: rest))) (l0 :: rest)))))
    (map price (firstn 2 rest)).
Proof.
  etransitivity; [apply firstn_sublist|].
  rewrite firstn_min_length. cbn [firstn List.filter].
  rewrite not_above_itself.
  apply map_sublist, filter_sublist.
Qed.

Lemma targets_sublist d st :
  sublist (_calculate_target_levels d st)
    (match st with
    | BUY => map price (firstn 2 (skipn 1 (ask_levels d)))
    | SELL => map price (firstn 2 (skipn 1 (bid_levels d)))
    | HOLD => []
    end).
Proof.
  unfold _calculate_target_levels.
  destruct (bid_levels d) as [|b0 bs] eqn:Eb, (ask_levels d) as [|a0 asks] eqn:Ea;
    destruct st; cbn [skipn]; try apply sublist_nil_l; try reflexivity;
    apply pick_sublist.
Qed.

End AnalysisFacts.

Module AnalysisClaims.
Import Analysis AnalysisFacts.

Local Open Scope Q_scope.

(** C10.  Whatever the snapshot and metrics, the targets of a BUY signal
    are drawn, in order, from the prices of ask levels 1 and 2 (never the
    best ask at level 0), so there are at most two of them; symmetrically
    for SELL on bid levels; HOLD has none. *)
Theorem targets_from_next_two_levels (d : Response) (m : Microstructure) :
  sublist (target_levels (signal_of d m))
    (match signal_type (signal_of d m) with
    | BUY => map price (firstn 2 (skipn 1 (ask_levels d)))
    | SELL => map price (firstn 2 (skipn 1 (bid_levels d)))
    | HOLD => []
    end)
  /\ (length (target_levels (signal_of d m)) <= 2)%nat.
Proof.
  unfold signal_of. destruct (detect_demand_supply_zones d) as [dem sup].
  destruct (combine_signals _ _) as [[st s] c]. cbn [target_levels signal_type].
  pose proof (targets_sublist d st) as H. split; [exact H|].
  apply sublist_length in H.
  destruct st; cbn in H |- *; rewrite ?length_map, ?length_firstn in H; lia.
Qed.

End AnalysisClaims.

Module AnalysisClaims2.
Import Analysis AnalysisFacts.

Local Open Scope Q_scope.

Lemma components_half ofi dem sup :
  ofi == 1 # 2 -> (dem <= sup + 2)%nat -> (sup <= dem + 2)%nat ->
  signal_components ofi dem sup = [(BUY, 70)].
Proof.
  intros Hofi H1 H2. unfold signal_components.
  assert (E : Qlt_bool (3 # 10) ofi = true).
  { apply Qlt_bool_iff. destruct ofi as [n d].
    unfold Qeq, Qlt in *; cbn in *. lia. }
  rewrite E.
  assert (F1 : Nat.ltb (sup + 2) dem = false) by (apply Nat.ltb_ge; lia).
  assert (F2 : Nat.ltb (dem + 2) sup = false) by (apply Nat.ltb_ge; lia).
  rewrite F1, F2. reflexivity.
Qed.

(** C5 (amended).  When no (direction, weight) candidate accumulates the
    signal is HOLD with strength 0 and confidence 50 (not
    min(90, 0 * liquidity/100) = 0).  Otherwise the direction is the
    majority by count (HOLD on a tie), the strength is the mean weight of
    the winning candidates (0 for HOLD) and the confidence is
    min(90, strength * liquidity/100).  An order-flow imbalance of 0.5
    with no zone imbalance gives BUY with strength 70. *)
Theorem signal_aggregation (d : Response) (m : Microstructure) :
  let '(demand, supply) := detect_demand_supply_zones d in
  let comps := signal_components (order_flow_imbalance m)
                 (length demand) (length supply) in
  let buys := List.filter (is_type BUY) comps in
  let sells := List.filter (is_type SELL) comps in
  let s := signal_of d m in
  (comps = [] ->
     signal_type s = HOLD /\ strength s == 0 /\ confidence s == 50) /\
  (comps <> [] ->
     ((signal_type s = BUY /\ (length sells < length buys)%nat
       /\ strength s == sum_weights buys / len_q buys)
      \/ (signal_type s = SELL /\ (length buys < length sells)%nat
          /\ strength s == sum_weights sells / len_q sells)
      \/ (signal_type s = HOLD /\ length buys = length sells /\ strength s == 0))
     /\ confidence s == Qmin 90 (strength s * (liquidity_score m / 100))) /\
  (order_flow_imbalance m == 1 # 2 ->
     (length demand <= length supply + 2)%nat ->
     (length supply <= length demand + 2)%nat ->
     signal_type s = BUY /\ strength s == 70
     /\ confidence s == Qmin 90 (70 * (liquidity_score m / 100))).
Proof.
  unfold signal_of. destruct (detect_demand_supply_zones d) as [dem sup].
  cbv zeta.
  remember (signal_components (order_flow_imbalance m) (length dem) (length sup))
    as comps eqn:Ec.
  destruct (combine_signals comps (liquidity_score m)) as [[st s] c] eqn:E.
  cbn [signal_type strength confidence].
  split; [|split].
  - intros ->. cbn in E. injection E as <- <- <-.
    split; [reflexivity | split; reflexivity].
  - intros Hne. destruct comps as [|c0 cs]; [congruence|].
    unfold combine_signals in E. cbv zeta in E.
    destruct (Nat.ltb_spec (length (List.filter (is_type SELL) (c0 :: cs)))
                           (length (List.filter (is_type BUY) (c0 :: cs)))) as [Hb|Hb];
    [|destruct (Nat.ltb_spec (length (List.filter (is_type BUY) (c0 :: cs)))
                             (length (List.filter (is_type SELL) (c0 :: cs)))) as [Hs|Hs]];
    injection E as <- <- <-; (split; [|reflexivity]).
    + left. split; [reflexivity | split; [exact Hb | reflexivity]].
    + right; left. split; [reflexivity | split; [exact Hs | reflexivity]].
    + right; right. split; [reflexivity | split; [lia | reflexivity]].
  - intros Hofi H1 H2.
    rewrite (components_half _ _ _ Hofi H1 H2) in Ec. subst comps.
    cbn in E. injection E as <- <- <-.
    split; [reflexivity | split; reflexivity].
Qed.

(** C6 (amended).  For non-empty bid and ask sides, with
    spread = best ask - best bid and S the total quantity of the first five
    levels of both sides, the estimate is min(spread / (S/10) * 1000, 1)
    when S > 0 and min(spread, 1) when S = 0 (the cap applies to the raw
    spread too).  The divisor is always 10, so S/10 is the mean quantity of
    those levels exactly when both sides have at least five levels. *)
Theorem price_impact_formula (b0 a0 : Level) (bs asks : list Level) :
  let bid := b0 :: bs in
  let ask := a0 :: asks in
  let spread := price a0 - price b0 in
  let top := firstn 5 bid ++ firstn 5 ask in
  (sum_qty top == 0 -> _calculate_price_impact bid ask == Qmin spread 1) /\
  (~ sum_qty top == 0 ->
     _calculate_price_impact bid ask == Qmin (spread / (sum_qty top / 10) * 1000) 1) /\
  ((5 <= length bid)%nat -> (5 <= length ask)%nat ->
     sum_qty top / 10 == sum_qty top / len_q top).
Proof.
  cbv zeta. unfold _calculate_price_impact. cbv zeta.
  rewrite positive_mean_iff by apply sum_qty_nonneg.
  split; [|split].
  - intros H. apply Qeq_bool_iff in H. rewrite H. reflexivity.
  - intros H. destruct (Qeq_bool _ 0) eqn:E.
    + apply Qeq_bool_iff in E. contradiction.
    + reflexivity.
  - intros Hb Ha. unfold len_q.
    rewrite length_app, !length_firstn.
    rewrite (Nat.min_l 5 (length (b0 :: bs))) by exact Hb.
    rewrite (Nat.min_l 5 (length (a0 :: asks))) by exact Ha.
    reflexivity.
Qed.

End AnalysisClaims2.

Module AnalysisExamples.
Import Analysis.

Local Open Scope Q_scope.

(** One bid level at 100 and one ask level at 101, ten shares each. *)
Definition quiet_book : Response :=
  {| security_id := "1333"; exchange_segment := "NSE_EQ";
     bid_levels := [{| price := 100; quantity := 10; orders := 1 |}];
     ask_levels := [{| price := 101; quantity := 10; orders := 1 |}] |}.

(** Metrics with no order-flow imbalance. *)
Definition quiet_metrics : Microstructure :=
  {| order_flow_imbalance := 0; price_impact_estimate := 1;
     liquidity_score := 504 # 25; market_efficiency := 50;
     volatility_estimate := 1 # 2 |}.

(** C5 counterexample: no candidate accumulates, and the confidence is 50
    while min(90, strength * liquidity/100) is 0. *)
Lemma hold_confidence_is_fifty :
  let s := signal_of quiet_book quiet_metrics in
  signal_type s = HOLD /\ Qeq_bool (strength s) 0 = true
  /\ Qeq_bool (confidence s) 50 = true
  /\ Qeq_bool (confidence s)
       (Qmin 90 (strength s * (liquidity_score quiet_metrics / 100))) = false.
Proof. vm_compute. repeat split. Qed.

(** C6 counterexample: (a) empty top levels on both sides with a spread
    of 2 give 1, not the raw spread; (b) one level of 1000 shares per side
    and a spread of 0.05 give 0.05 / (2000/10) * 1000 = 0.25, while the
    mean quantity of those levels (1000) would give 0.05. *)
Lemma price_impact_divides_by_ten :
  let z := {| price := 1; quantity := 0; orders := 0 |} in
  let z' := {| price := 3; quantity := 0; orders := 0 |} in
  let b := {| price := 100; quantity := 1000; orders := 1 |} in
  let a := {| price := 2001 # 20; quantity := 1000; orders := 1 |} in
  Qeq_bool (_calculate_price_impact [z] [z']) 1 = true
  /\ Qeq_bool (_calculate_price_impact [z] [z']) (price z' - price z) = false
  /\ Qeq_bool (_calculate_price_impact [b] [a]) (1 # 4) = true
  /\ Qeq_bool (_calculate_price_impact [b] [a])
       ((price a - price b) / 1000 * 1000) = false.
Proof. vm_compute. repeat split. Qed.

End AnalysisExamples.

(** ** Snapshot history *)
Module HistoryFacts.
Import Analysis History.

Local Open Scope nat_scope.

Lemma deque_append_window {A} (n : nat) (ds : list A) (x : A) :
  deque_append n (skipn (length ds - n) ds) x
  = skipn (length (ds ++ [x]) - n) (ds ++ [x]).
Proof.
  unfold deque_append. rewrite length_drop, length_app. cbn [length].
  destruct (Nat.ltb_spec (length ds - (length ds - n)) n) as [H|H].
  - replace (length ds - n) with 0 by lia.
    replace (length ds + 1 - n) with 0 by lia. reflexivity.
  - destruct n as [|n].
    + rewrite Nat.sub_0_r, drop_ge by lia.
      rewrite drop_ge by (rewrite length_app; cbn; lia). reflexivity.
    + destruct (skipn (length ds - S n) ds) as [|y t] eqn:E.
      * apply (f_equal length) in E. rewrite length_drop in E. cbn in E. lia.
      * assert (Et : t = skipn (length ds - S n + 1) ds).
        { rewrite <- drop_drop, E. reflexivity. }
        rewrite Et, drop_app_le by lia. f_equal. f_equal. lia.
Qed.

Lemma history_after (n : nat) (ds : list Response) :
  history_size (fold_left add_depth_snapshot ds (new_analyzer n)) = n
  /\ depth_history (fold_left add_depth_snapshot ds (new_analyzer n))
     = skipn (length ds - n) ds.
Proof.
  induction ds as [|x ds IH] using rev_ind; [split; reflexivity|].
  rewrite fold_left_app. cbn [fold_left add_depth_snapshot history_size depth_history].
  destruct IH as [Hn Hh]. rewrite Hn, Hh. split; [reflexivity|].
  apply deque_append_window.
Qed.

End HistoryFacts.

Module HistoryClaims.
Import Analysis History HistoryFacts.

Local Open Scope nat_scope.

(** C8 (amended).  An analyzer created with capacity [n] that has been
    given the snapshots [ds] (of any instruments, in this order) keeps
    exactly the last [n] of them: one FIFO shared by all instruments, at
    most [n] long, oldest dropped first.  The up-to-10 entries the
    volatility estimate reads are the last min(n, 10) snapshots added,
    whatever their instrument, and the estimate does not depend on the
    snapshot it is asked about. *)
Theorem single_shared_history (n : nat) (ds : list Response) (d d' : Response) :
  let an := fold_left add_depth_snapshot ds (new_analyzer n) in
  depth_history an = skipn (length ds - n) ds
  /\ (length (depth_history an) <= n)%nat
  /\ recent_snapshots an = skipn (length ds - Nat.min n 10) ds
  /\ _estimate_volatility an d = _estimate_volatility an d'.
Proof.
  cbv zeta. destruct (history_after n ds) as [_ Hh].
  split; [exact Hh|]. split; [|split].
  - rewrite Hh, length_drop. lia.
  - unfold recent_snapshots. rewrite Hh, length_drop, drop_drop. f_equal. lia.
  - reflexivity.
Qed.

End HistoryClaims.

Module HistoryExamples.
Import Analysis History.

Local Open Scope Q_scope.

Definition book (sid : string) (p : Q) : Response :=
  {| security_id := sid; exchange_segment := "NSE_EQ";
     bid_levels := [{| price := p; quantity := 10; orders := 1 |}];
     ask_levels := [{| price := p; quantity := 10; orders := 1 |}] |}.

(** C8 counterexample: after a snapshot of instrument 1333 (mid 100) and
    one of instrument 11536 (mid 200), the history read when analysing
    instrument 1333 holds both, and its volatility is 1 (the capped
    100% move between the two instruments' prices). *)
Lemma volatility_mixes_instruments :
  let an := add_depth_snapshot
              (add_depth_snapshot (new_analyzer 100) (book "1333" 100))
              (book "11536" 200) in
  map security_id (recent_snapshots an) = ["1333"; "11536"]%string
  /\ match _estimate_volatility an (book "1333" 100) with
     | Ok v => Qeq_bool v 1 = true
     | Raise _ => False
     end.
Proof. vm_compute. split; reflexivity. Qed.

End HistoryExamples.

(** ** Depth manager *)
Module ManagerFacts.
Import Assembler Manager.

Lemma dispatch_spec (cbs : list Callback) (r : MarketDepth20Response) :
  fst (dispatch cbs r) = map (fun cb => (cb_id cb, r)) cbs
  /\ length (snd (dispatch cbs r)) = length (List.filter (fun cb => cb_raises cb r) cbs).
Proof.
  induction cbs as [|cb cbs IH]; [split; reflexivity|].
  cbn [dispatch]. destruct (dispatch cbs r) as [ds logs]. cbn in IH |- *.
  destruct IH as [H1 H2]. rewrite H1. split; [reflexivity|].
  destruct (cb_raises cb r); cbn; congruence.
Qed.

End ManagerFacts.

Module ManagerClaims.
Import Assembler Manager ManagerFacts.

(** C9.  On a depth update, every callback registered for the update's
    instrument is called with that update, in registration order,
    whether or not earlier ones raised; each raising call is caught and
    adds exactly one log line. *)
Theorem every_callback_receives_update (m : MarketDepthManager)
    (r : MarketDepth20Response) :
  let callbacks := default [] (subscribers m !! r_security_id r) in
  fst (snd (_on_depth_update m r)) = map (fun cb => (cb_id cb, r)) callbacks
  /\ length (snd (snd (_on_depth_update m r)))
     = length (List.filter (fun cb => cb_raises cb r) callbacks).
Proof. cbv zeta. unfold _on_depth_update. cbn [fst snd]. apply dispatch_spec. Qed.

Definition plain_requests (n : nat) : list (string * option Callback) :=
  map (fun i => (Py.str_of_Z (Z.of_nat i), None)) (seq 1 n).

Definition callback_requests (n : nat) : list (string * option Callback) :=
  map (fun i => (Py.str_of_Z (Z.of_nat i),
                 Some {| cb_id := i; cb_raises := fun _ => false |})) (seq 1 n).

(** C4 (code bug).  The cap of 50 is checked against the number of
    instruments that have a callback, not against the subscriptions:
    on a connected manager, 51 subscriptions made without a callback all
    succeed and the feed client holds 51 subscriptions.  With a callback
    each time, the 51st is refused and 50 subscriptions remain. *)
Theorem cap_counts_callbacks_only :
  (let '(m, rs) := subscribe_all connected_manager (plain_requests 51) in
   rs = repeat (Ok tt) 51
   /\ option_map (fun ws => size (subscriptions ws)) (ws_client m) = Some 51%nat
   /\ size (subscribers m) = 0%nat)
  /\ (let '(m, rs) := subscribe_all connected_manager (callback_requests 51) in
      rs = repeat (Ok tt) 50 ++ [Raise "MarketDataError: Maximum subscriptions reached"%string]
      /\ option_map (fun ws => size (subscriptions ws)) (ws_client m) = Some 50%nat
      /\ size (subscribers m) = 50%nat).
Proof. vm_compute. repeat split. Qed.

End ManagerClaims.

Module FeedExamples.
Import Wire.

(** C3 counterexample: a ticker frame (code 2) with a 4-byte payload,
    shorter than the 8 bytes [_parse_ticker_packet] unpacks: the decoder
    raises (struct.error), and the frame is dropped by the exception
    handler of [_on_message], which logs it. *)
Lemma short_ticker_raises :
  let frame := be_bytes 1 2 ++ be_bytes 2 12 ++ be_bytes 1 1
               ++ be_bytes 4 7 ++ be_bytes 4 0 in
  Py.raised (Feed._parse_binary_message frame) = true
  /\ fst (Feed._on_message frame) = None
  /\ length (snd (Feed._on_message frame)) = 1%nat.
Proof. vm_compute. repeat split. Qed.

End FeedExamples.

(** ** Wire round trips *)
Module WireFacts.
Import Wire WireFeed Depth DecoderFacts.

Lemma byte_of_to_N v : Z.of_N (Byte.to_N (byte_of v)) = v mod 256.
Proof.
  unfold byte_of. pose proof (Z.mod_pos_bound v 256 ltac:(lia)) as Hb.
  destruct (Byte.of_N (Z.to_N (v mod 256))) eqn:E.
  - apply Byte.to_of_N in E. rewrite E. lia.
  - apply Byte.of_N_None_iff in E. lia.
Qed.

Lemma length_be_bytes w v : length (be_bytes w v) = w.
Proof.
  revert v; induction w as [|w IH]; intros v; [reflexivity|].
  cbn [be_bytes]. rewrite length_app, IH. cbn. lia.
Qed.

Lemma be_value_snoc l b : be_value (l ++ [b]) = be_value l * 256 + Z.of_N (Byte.to_N b).
Proof. unfold be_value. rewrite fold_left_app. reflexivity. Qed.

Lemma be_value_be_bytes w : forall v, be_value (be_bytes w v) = v mod 256 ^ Z.of_nat w.
Proof.
  induction w as [|w IH]; intros v.
  - cbn. rewrite Z.mod_1_r. reflexivity.
  - cbn [be_bytes]. rewrite be_value_snoc, IH, byte_of_to_N.
    rewrite Nat2Z.inj_succ, Z.pow_succ_r by lia.
    assert (Hp : 0 < 256 ^ Z.of_nat w) by (apply Z.pow_pos_nonneg; lia).
    rewrite Z.rem_mul_r by lia. lia.
Qed.

Lemma be_bytes_value w v : 0 <= v < 256 ^ Z.of_nat w -> be_value (be_bytes w v) = v.
Proof. intros H. rewrite be_value_be_bytes. apply Z.mod_small, H. Qed.

Lemma slice_at {A} (pre x post l : list A) (i j : nat) :
  l = pre ++ x ++ post -> i = length pre -> j = (length pre + length x)%nat ->
  slice l i j = x.
Proof.
  intros -> -> ->. unfold slice. rewrite drop_app_length' by reflexivity.
  replace (length pre + length x - length pre)%nat with (length x) by lia.
  apply take_app_length'. reflexivity.
Qed.

Lemma slice_skip {A} (l : list A) a b :
  slice (skipn 16 l) a b = slice l (16 + a) (16 + b).
Proof. unfold slice. rewrite drop_drop. f_equal. all: lia. Qed.

Lemma wire_level_skip l i : wire_level l (S i) = wire_level (skipn 16 l) i.
Proof.
  unfold wire_level. rewrite !slice_skip.
  replace (S i * 16)%nat with (16 + i * 16)%nat by lia.
  rewrite <- !Nat.add_assoc. reflexivity.
Qed.

Lemma length_encode_levels ls : length (encode_levels ls) = (16 * length ls)%nat.
Proof.
  unfold encode_levels.
  induction ls as [|[[p q] o] ls IH]; [reflexivity|].
  cbn [flat_map]. rewrite !length_app, IH, !length_be_bytes.
  cbn [length]. lia.
Qed.

Ltac fits := repeat match goal with
  | H : _ && _ = true |- _ => apply andb_true_iff in H as [? ?]
  | H : (_ <=? _) = true |- _ => apply Z.leb_le in H
  | H : (_ <? _) = true |- _ => apply Z.ltb_lt in H
  end.

Lemma wire_level_first p q o rest :
  record_fits (p, q, o) = true ->
  wire_level (be_bytes 8 p ++ be_bytes 4 q ++ be_bytes 4 o ++ rest) 0
  = decoded_level (p, q, o).
Proof.
  intros H. cbn [record_fits] in H. fits.
  unfold wire_level. cbn [Nat.mul Nat.add].
  rewrite (slice_at [] (be_bytes 8 p) (be_bytes 4 q ++ be_bytes 4 o ++ rest) _ 0 8)
    by (reflexivity || (rewrite ?length_be_bytes; reflexivity)).
  rewrite (slice_at (be_bytes 8 p) (be_bytes 4 q) (be_bytes 4 o ++ rest) _ 8 12)
    by (reflexivity || (rewrite ?length_be_bytes; reflexivity)).
  rewrite (slice_at (be_bytes 8 p ++ be_bytes 4 q) (be_bytes 4 o) rest _ 12 16)
    by (rewrite ?app_assoc, ?length_app, ?length_be_bytes; reflexivity).
  rewrite !be_bytes_value by (cbn; lia). reflexivity.
Qed.

Lemma wire_levels_encode (ls : list (Z * Z * Z)) : forall l tl,
  l = encode_levels ls ++ tl -> forallb record_fits ls = true ->
  map (wire_level l) (seq 0 (length ls)) = map decoded_level ls.
Proof.
  induction ls as [|[[p q] o] ls IH]; intros l tl El Hf; [reflexivity|].
  cbn [forallb] in Hf. apply andb_true_iff in Hf as [Hr Hf].
  cbn [length seq map]. f_equal.
  - rewrite El. cbn [encode_levels flat_map]. rewrite <- !app_assoc.
    apply wire_level_first, Hr.
  - rewrite <- seq_shift, map_map.
    rewrite (map_ext _ _ (wire_level_skip l)).
    apply (IH _ tl); [|exact Hf].
    rewrite El. cbn [encode_levels flat_map]. rewrite <- app_assoc.
    apply drop_app_length'. rewrite !length_app, !length_be_bytes. reflexivity.
Qed.

Lemma depth_frame_fields code seg sid payload :
  0 <= code < 256 -> 0 <= seg < 256 -> 0 <= sid < 2 ^ 32 ->
  let msg := depth_frame code seg sid payload in
  be_value (slice msg 2 3) = code /\ be_value (slice msg 3 4) = seg
  /\ be_value (slice msg 4 8) = sid /\ skipn 12 msg = payload
  /\ length msg = (12 + length payload)%nat.
Proof.
  intros Hc Hs Hi msg. unfold msg, depth_frame.
  set (L := be_bytes 2 _). set (C := be_bytes 1 code). set (S := be_bytes 1 seg).
  set (I := be_bytes 4 sid). set (Z0 := be_bytes 4 0).
  assert (lL : length L = 2%nat) by apply length_be_bytes.
  assert (lC : length C = 1%nat) by apply length_be_bytes.
  assert (lS : length S = 1%nat) by apply length_be_bytes.
  assert (lI : length I = 4%nat) by apply length_be_bytes.
  assert (lZ : length Z0 = 4%nat) by apply length_be_bytes.
  split; [|split; [|split; [|split]]].
  - rewrite (slice_at L C (S ++ I ++ Z0 ++ payload) _ 2 3) by (reflexivity || lia).
    apply be_bytes_value. cbn. lia.
  - rewrite (slice_at (L ++ C) S (I ++ Z0 ++ payload) _ 3 4)
      by (rewrite ?app_assoc; reflexivity || (rewrite ?length_app; lia)).
    apply be_bytes_value. cbn. lia.
  - rewrite (slice_at (L ++ C ++ S) I (Z0 ++ payload) _ 4 8)
      by (rewrite ?app_assoc; reflexivity || (rewrite ?length_app; lia)).
    apply be_bytes_value. cbn. lia.
  - rewrite !app_assoc. apply drop_app_length'. rewrite !length_app. lia.
  - rewrite !length_app. lia.
Qed.

Lemma feed_frame_fields code seg sid payload :
  0 <= code < 256 -> 0 <= seg < 256 -> 0 <= sid < 2 ^ 32 ->
  let msg := feed_frame code seg sid payload in
  be_value (slice msg 0 1) = code /\ be_value (slice msg 3 4) = seg
  /\ be_value (slice msg 4 8) = sid /\ skipn 8 msg = payload
  /\ length msg = (8 + length payload)%nat.
Proof.
  intros Hc Hs Hi msg. unfold msg, feed_frame.
  set (C := be_bytes 1 code). set (L := be_bytes 2 _). set (S := be_bytes 1 seg).
  set (I := be_bytes 4 sid).
  assert (lL : length L = 2%nat) by apply length_be_bytes.
  assert (lC : length C = 1%nat) by apply length_be_bytes.
  assert (lS : length S = 1%nat) by apply length_be_bytes.
  assert (lI : length I = 4%nat) by apply length_be_bytes.
  split; [|split; [|split; [|split]]].
  - rewrite (slice_at [] C (L ++ S ++ I ++ payload) _ 0 1) by (reflexivity || lia).
    apply be_bytes_value. cbn. lia.
  - rewrite (slice_at (C ++ L) S (I ++ payload) _ 3 4)
      by (rewrite ?app_assoc; reflexivity || (rewrite ?length_app; lia)).
    apply be_bytes_value. cbn. lia.
  - rewrite (slice_at (C ++ L ++ S) I payload _ 4 8)
      by (rewrite ?app_assoc; reflexivity || (rewrite ?length_app; lia)).
    apply be_bytes_value. cbn. lia.
  - rewrite !app_assoc. apply drop_app_length'. rewrite !length_app. lia.
  - rewrite !length_app. lia.
Qed.

End WireFacts.

Module DecoderExtraFacts.
Import Depth DecoderFacts.

Lemma quote_fields_ok p : (42 <= length p)%nat ->
  Feed._parse_quote_fields p =
  Ok {| Feed.q_ltp := be_value (slice p 0 4); Feed.q_ltq := be_value (slice p 4 6);
        Feed.q_ltt := be_value (slice p 6 10); Feed.q_atp := be_value (slice p 10 14);
        Feed.q_volume := be_value (slice p 14 18);
        Feed.q_total_sell_qty := be_value (slice p 18 22);
        Feed.q_total_buy_qty := be_value (slice p 22 26);
        Feed.q_open := be_value (slice p 26 30); Feed.q_close := be_value (slice p 30 34);
        Feed.q_high := be_value (slice p 34 38); Feed.q_low := be_value (slice p 38 42) |}.
Proof.
  intros H. unfold Feed._parse_quote_fields. unfold_unpacks.
  repeat (rewrite unpack_slice_ok by lia; cbn [bind]). reflexivity.
Qed.

(** The depth loop of [_parse_full_packet] never raises and reads the
    entries whose 20 bytes are all there. *)
Lemma full_depth_loop_ok payload f : forall i,
  exists md, Feed.full_depth_loop payload i f = Ok md
  /\ length md = length (List.filter
                   (fun j => Nat.leb (54 + (j + 1) * 20) (length payload)) (seq i f)).
Proof.
  induction f as [|f IH]; intros i; [exists []; split; reflexivity|].
  cbn [Feed.full_depth_loop seq List.filter].
  destruct (IH (S i)) as [md [Hmd Hl]].
  destruct (Nat.leb_spec (54 + (i + 1) * 20) (length payload)) as [Hle|Hgt].
  - unfold_unpacks. repeat (rewrite unpack_slice_ok by lia; cbn [bind]).
    rewrite Hmd. cbn [bind]. eexists; split; [reflexivity|]. cbn [length]. rewrite Hl. reflexivity.
  - exists md. split; assumption.
Qed.

Lemma full_depth_count n :
  length (List.filter (fun j => Nat.leb (54 + (j + 1) * 20) n) (seq 0 5))
  = Nat.min 5 ((n - 54) / 20).
Proof.
  change (seq 0 5) with [0;1;2;3;4]%nat.
  change (54 + (0 + 1) * 20)%nat with 74%nat.
  cbn [List.filter]. cbn [Nat.add Nat.mul].
  pose proof (Nat.div_mod_eq (n - 54) 20) as Hd.
  pose proof (Nat.mod_upper_bound (n - 54) 20 ltac:(lia)) as Hm.
  set (k := ((n - 54) / 20)%nat) in *. set (r := ((n - 54) mod 20)%nat) in *.
  destruct (Nat.leb_spec 74 n); destruct (Nat.leb_spec 94 n);
  destruct (Nat.leb_spec 114 n); destruct (Nat.leb_spec 134 n);
  destruct (Nat.leb_spec 154 n); cbn [length]; lia.
Qed.

End DecoderExtraFacts.

Module DecoderExtras.
Import Wire WireFeed Depth DecoderFacts WireFacts DecoderExtraFacts.

(** A bid (code 41) or ask (code 51) frame carrying twenty 16-byte
    records decodes to a side holding exactly those records, in order,
    with the frame's security id and segment name. *)
Theorem depth_frame_roundtrip (seg sid : Z) (ls : list (Z * Z * Z)) (now : Q) :
  0 <= seg < 256 -> 0 <= sid < 2 ^ 32 ->
  length ls = 20%nat -> forallb record_fits ls = true ->
  let side_of (sd : string) :=
    {| levels := map decoded_level ls; side := sd;
       security_id := str_of_Z sid;
       exchange_segment := _get_exchange_segment_name seg; timestamp := now |} in
  _parse_depth_message (depth_frame BID_DATA seg sid (encode_levels ls)) now
    = Ok (StoreBid (side_of "BID"%string))
  /\ _parse_depth_message (depth_frame ASK_DATA seg sid (encode_levels ls)) now
    = Ok (StoreAsk (side_of "ASK"%string)).
Proof.
  intros Hs Hi Hl Hf side_of.
  assert (Hlen : length (encode_levels ls) = 320%nat)
    by (rewrite length_encode_levels, Hl; reflexivity).
  assert (Hlv : map (wire_level (encode_levels ls)) (seq 0 20) = map decoded_level ls)
    by (rewrite <- Hl; apply (wire_levels_encode ls _ []); [rewrite app_nil_r|]; auto).
  split.
  - destruct (depth_frame_fields BID_DATA seg sid (encode_levels ls))
      as [Hc [Hg [Hd [Hp Hm]]]]; [unfold BID_DATA; lia | exact Hs | exact Hi |].
    rewrite parse_depth_message_header by lia. cbv zeta.
    rewrite Hc, Hg, Hd, Hp, Z.eqb_refl.
    unfold _parse_bid_depth. rewrite parse_side_depth_spec, Hlen, Hlv. reflexivity.
  - destruct (depth_frame_fields ASK_DATA seg sid (encode_levels ls))
      as [Hc [Hg [Hd [Hp Hm]]]]; [unfold ASK_DATA; lia | exact Hs | exact Hi |].
    rewrite parse_depth_message_header by lia. cbv zeta.
    rewrite Hc, Hg, Hd, Hp. cbn [BID_DATA ASK_DATA Z.eqb Pos.eqb].
    unfold _parse_ask_depth. rewrite parse_side_depth_spec, Hlen, Hlv. reflexivity.
Qed.

(** A ticker frame (code 2) whose payload is the 4-byte last traded
    price and the 4-byte last trade time decodes to a ticker packet with
    those two values and the frame's security id and segment name. *)
Theorem ticker_frame_roundtrip (seg sid ltp ltt : Z) :
  0 <= seg < 256 -> 0 <= sid < 2 ^ 32 -> 0 <= ltp < 2 ^ 32 -> 0 <= ltt < 2 ^ 32 ->
  Feed._parse_binary_message
    (feed_frame Feed.TICKER seg sid (be_bytes 4 ltp ++ be_bytes 4 ltt))
  = Ok (Some (Feed.TickerPacket (str_of_Z sid) (_get_exchange_segment_name seg) ltp ltt)).
Proof.
  intros Hs Hi Hp Ht.
  destruct (feed_frame_fields Feed.TICKER seg sid (be_bytes 4 ltp ++ be_bytes 4 ltt))
    as [Hc [Hg [Hd [Hpl Hm]]]]; [unfold Feed.TICKER; lia | exact Hs | exact Hi |].
  rewrite parse_binary_header
    by (rewrite Hm, length_app, !length_be_bytes; lia).
  cbv zeta. rewrite Hc, Hg, Hd, Hpl, Z.eqb_refl.
  unfold Feed._parse_ticker_packet. unfold_unpacks.
  rewrite (slice_at [] (be_bytes 4 ltp) (be_bytes 4 ltt) _ 0 4)
    by (rewrite ?app_nil_r; reflexivity || (rewrite ?length_be_bytes; reflexivity)).
  rewrite (slice_at (be_bytes 4 ltp) (be_bytes 4 ltt) [] _ 4 8)
    by (rewrite ?app_nil_r; reflexivity || (rewrite ?length_be_bytes; reflexivity)).
  unfold unpack. rewrite !length_be_bytes. cbn [Nat.eqb bind].
  rewrite !be_bytes_value by (cbn; lia). reflexivity.
Qed.

(** A full packet payload decodes exactly when it has at least 42 bytes
    (otherwise [struct.error] is raised).  Its [oi] is read from bytes
    26-30, the same bytes as the open price, and it carries one depth
    entry per complete 20-byte record after byte 54, at most five. *)
Theorem full_packet_layout (payload : list byte) (sid seg : string) :
  match Feed._parse_full_packet payload sid seg with
  | Ok (Feed.FullPacket sid' seg' q oi md) =>
      (42 <= length payload)%nat /\ sid' = sid /\ seg' = seg
      /\ oi = Feed.q_open q
      /\ length md = Nat.min 5 ((length payload - 54) / 20)
  | Ok _ => False
  | Raise _ => (length payload < 42)%nat
  end.
Proof.
  unfold Feed._parse_full_packet.
  destruct (Nat.ltb_spec (length payload) 42) as [Hs|Hl].
  - pose proof (quote_fields_raised (firstn 42 payload)) as Hr.
    rewrite length_take, Nat.min_r, (proj2 (Nat.ltb_lt _ _) Hs) in Hr by lia.
    destruct (Feed._parse_quote_fields (firstn 42 payload)); cbn [bind].
    + discriminate Hr.
    + exact Hs.
  - rewrite quote_fields_ok by (rewrite length_take; lia). cbn [bind].
    destruct (Nat.ltb_spec 30 (length payload)); [|lia].
    unfold_unpacks. rewrite (unpack_slice_ok 4 payload 26 30) by lia. cbn [bind].
    destruct (full_depth_loop_ok payload 5 0) as [md [Hmd Hlen]].
    rewrite Hmd. cbn [bind Feed.q_open].
    split; [exact Hl|]. split; [reflexivity|]. split; [reflexivity|]. split.
    + unfold slice. change (take 42 payload) with (take (26 + 16) payload).
      rewrite <- take_drop_commute, take_take. reflexivity.
    + rewrite Hlen. apply full_depth_count.
Qed.

End DecoderExtras.

Module DecoderExtraExamples.
Import Wire WireFeed Depth.

(** Twenty records priced 1.0, quantities 1 to 20, one order each. *)
Definition ramp_records : list (Z * Z * Z) :=
  map (fun i => (one_f64, Z.of_nat i, 1)) (seq 1 20).

Lemma depth_frame_roundtrip_witness :
  (0 <= 1 < 256 /\ 0 <= 7 < 2 ^ 32 /\ length ramp_records = 20%nat
   /\ forallb record_fits ramp_records = true)
  /\ _parse_depth_message (depth_frame BID_DATA 1 7 (encode_levels ramp_records)) 0
     = Ok (StoreBid {| levels := map decoded_level ramp_records; side := "BID";
                       security_id := str_of_Z 7;
                       exchange_segment := _get_exchange_segment_name 1;
                       timestamp := 0 |}).
Proof.
  split; [split; [lia | split; [lia | split; reflexivity]]|].
  apply (DecoderExtras.depth_frame_roundtrip 1 7 ramp_records 0);
    [lia | lia | reflexivity | reflexivity].
Defined.

Lemma ticker_frame_roundtrip_witness :
  Feed._parse_binary_message
    (WireFeed.feed_frame Feed.TICKER 2 1333 (be_bytes 4 1120403456 ++ be_bytes 4 1700000000))
  = Ok (Some (Feed.TickerPacket (str_of_Z 1333) (_get_exchange_segment_name 2)
                1120403456 1700000000)).
Proof.
  apply DecoderExtras.ticker_frame_roundtrip; lia.
Defined.

End DecoderExtraExamples.

Module Level3Extras.
Import Manager Level3.
Local Open Scope Q_scope.

(** Errors after the first one each come at most [error_reset_time]
    seconds after the previous one. *)
Fixpoint within_reset (last : Q) (ts : list Q) : bool :=
  match ts with
  | [] => true
  | t :: rest => negb (Qlt_bool error_reset_time (t - last)) && within_reset t rest
  end.

(** [_on_close] called [k] times in a row, with every reconnection
    failing to open. *)
Fixpoint failed_closes (c : Level3Client) (k : nat) : Level3Client * list string :=
  match k with
  | O => (c, [])
  | S k' =>
      let '(c1, l1) := _on_close c false in
      let '(c2, l2) := failed_closes c1 k' in
      (c2, l1 ++ l2)
  end.

(** Every entry of [self.subscriptions] is stored under the key
    [segment:security_id] built from its value, with a supported segment. *)
Definition well_keyed (subs : gmap string (string * string)) : Prop :=
  map_Forall (fun k '(seg, sid) =>
    k = (seg ++ ":" ++ sid)%string /\ in_strings seg supported_segments = true) subs.

Lemma on_messages_state c evs :
  let c' := fst (on_messages c evs) in
  message_queue c' = message_queue c ++ map snd evs
  /\ ws c' = ws c /\ error_count c' = error_count c
  /\ stop_processing c' = stop_processing c
  /\ reconnect_attempts c' = reconnect_attempts c.
Proof.
  revert c. induction evs as [|[t msg] evs IH]; intros c; cbv zeta.
  - cbn. rewrite app_nil_r. repeat split.
  - cbn [on_messages]. unfold _on_message.
    destruct (if Qle_bool 1 (t - last_rate_check c) then _ else _) as [[n l] logs].
    destruct (on_messages _ evs) as [c2 l2] eqn:E.
    specialize (IH {| ws := ws c; message_queue := message_queue c ++ [msg];
      message_count := S n; last_rate_check := l; error_count := error_count c;
      last_error_time := last_error_time c; stop_processing := stop_processing c;
      reconnect_attempts := reconnect_attempts c |}).
    rewrite E in IH. cbn in IH |- *. destruct IH as [H1 [H2 [H3 [H4 H5]]]].
    rewrite H1, <- app_assoc. repeat split; assumption.
Qed.

Lemma handle_errors_within c ts :
  within_reset (last_error_time c) ts = true ->
  snd (handle_errors c ts) = map (Nat.leb max_errors) (seq (S (error_count c)) (length ts)).
Proof.
  revert c. induction ts as [|t ts IH]; intros c H; [reflexivity|].
  cbn [within_reset] in H. apply andb_true_iff in H as [Ht Hr].
  apply negb_true_iff in Ht.
  cbn [handle_errors]. unfold _handle_error. rewrite Ht.
  set (c1 := {| ws := ws c; message_queue := message_queue c;
    message_count := message_count c; last_rate_check := last_rate_check c;
    error_count := S (error_count c); last_error_time := t;
    stop_processing := stop_processing c; reconnect_attempts := reconnect_attempts c |}).
  destruct (Nat.leb max_errors (error_count c1)) eqn:Hb.
  - destruct (handle_errors (disconnect c1) ts) as [c2 fs] eqn:E.
    pose proof (IH (disconnect c1) Hr) as IH'. rewrite E in IH'. cbn in IH' |- *.
    rewrite IH'. cbn in Hb. rewrite Hb. reflexivity.
  - destruct (handle_errors c1 ts) as [c2 fs] eqn:E.
    pose proof (IH c1 Hr) as IH'. rewrite E in IH'. cbn in IH' |- *.
    rewrite IH'. cbn in Hb. rewrite Hb. reflexivity.
Qed.

Lemma fold_track_spec (l : list (string * string)) (m : gmap string (string * string)) :
  well_keyed m ->
  forallb (fun '(_, seg) => in_strings seg supported_segments) l = true ->
  let m' := fold_left (fun m '(sid, seg) =>
                         <[(seg ++ ":" ++ sid)%string := (seg, sid)]> m) l m in
  well_keyed m'
  /\ (forall k, is_Some (m !! k) -> is_Some (m' !! k))
  /\ (forall sid seg, In (sid, seg) l -> is_Some (m' !! (seg ++ ":" ++ sid)%string)).
Proof.
  revert m. induction l as [|[sid seg] l IH]; intros m Hw Hf; cbv zeta.
  - split; [exact Hw|]. split; [auto|]. intros ? ? [].
  - cbn [forallb] in Hf. apply andb_true_iff in Hf as [Hs Hf].
    cbn [fold_left].
    destruct (IH (<[(seg ++ ":" ++ sid)%string := (seg, sid)]> m)) as [H1 [H2 H3]].
    + apply map_Forall_insert_2; [split; [reflexivity | exact Hs] | exact Hw].
    + exact Hf.
    + split; [exact H1|]. split.
      * intros k Hk. apply H2. apply lookup_insert_is_Some'. right. exact Hk.
      * intros sid' seg' [Heq|Hin].
        -- injection Heq as -> ->. apply H2. apply lookup_insert_is_Some'. left. reflexivity.
        -- apply H3. exact Hin.
Qed.

End Level3Extras.

Module Level3Claims.
Import Manager Level3 Level3Extras.
Local Open Scope Q_scope.

(** [_on_message] never drops a message: after any sequence of incoming
    messages the queue is the old queue followed by the messages in
    arrival order, whatever the rate limit says; the connection, the
    error count, the stop flag and the reconnect counter are untouched. *)
Theorem on_message_queues_everything (c : Level3Client) (evs : list (Q * list byte)) :
  let c' := fst (on_messages c evs) in
  message_queue c' = message_queue c ++ map snd evs
  /\ ws c' = ws c /\ error_count c' = error_count c
  /\ stop_processing c' = stop_processing c
  /\ reconnect_attempts c' = reconnect_attempts c.
Proof. apply on_messages_state. Qed.

(** Once more than [error_reset_time] (300 s) has passed since the last
    error, a burst of errors each within 300 s of the previous one
    restarts the count at 1: the first nine errors do not disconnect and
    the tenth and every later one forces a disconnect (the count is never
    reset by the disconnect itself). *)
Theorem error_burst_disconnects (c : Level3Client) (t0 : Q) (ts : list Q) :
  Qlt_bool error_reset_time (t0 - last_error_time c) = true ->
  within_reset t0 ts = true ->
  snd (handle_errors c (t0 :: ts))
  = map (Nat.leb max_errors) (seq 1 (S (length ts))).
Proof.
  intros H0 Hr. cbn [handle_errors]. unfold _handle_error at 1. rewrite H0.
  set (c1 := {| ws := ws c; message_queue := message_queue c;
    message_count := message_count c; last_rate_check := last_rate_check c;
    error_count := 1%nat; last_error_time := t0;
    stop_processing := stop_processing c; reconnect_attempts := reconnect_attempts c |}).
  change (Nat.leb max_errors (error_count c1)) with false.
  destruct (handle_errors c1 ts) as [c2 fs] eqn:E.
  pose proof (handle_errors_within c1 ts Hr) as H. rewrite E in H. cbn in H.
  rewrite E. cbn. rewrite H. reflexivity.
Qed.

(** Reconnection gives up after [max_reconnect_attempts]: starting from
    at most 5 attempts, [k] closes whose reconnection fails leave the
    counter at [min 5 (attempts + k)], and only the first
    [5 - attempts] of them try (and log a failure); the client stays
    disconnected. *)
Theorem reconnect_attempts_bounded (c : Level3Client) (k : nat) :
  (reconnect_attempts c <= max_reconnect_attempts)%nat ->
  let '(c', logs) := failed_closes c k in
  reconnect_attempts c' = Nat.min max_reconnect_attempts (reconnect_attempts c + k)
  /\ length logs = Nat.min k (max_reconnect_attempts - reconnect_attempts c)
  /\ (0 < k -> is_connected (ws c') = false)%nat.
Proof.
  unfold max_reconnect_attempts. revert c.
  induction k as [|k IH]; intros c Hc; cbn [failed_closes].
  - cbn -[Nat.min]. split; [lia|]. split; [lia|]. intros; lia.
  - unfold _on_close at 1. cbn [set_ws reconnect_attempts ws].
    unfold max_reconnect_attempts.
    destruct (Nat.ltb_spec (reconnect_attempts c) 5) as [Hlt|Hge].
    + destruct (failed_closes _ k) as [c2 l2] eqn:E.
      match type of E with failed_closes ?c1 _ = _ =>
        specialize (IH c1); rewrite E in IH; cbn -[Nat.min Nat.sub] in IH end.
      destruct (IH ltac:(lia)) as [H1 [H2 H3]].
      split; [rewrite H1; lia|]. split.
      * cbn [length app]. rewrite H2. lia.
      * intros _. destruct k as [|k]; [cbn in E; injection E as <- _; reflexivity|].
        apply H3. lia.
    + destruct (failed_closes _ k) as [c2 l2] eqn:E.
      match type of E with failed_closes ?c1 _ = _ =>
        specialize (IH c1); rewrite E in IH; cbn -[Nat.min Nat.sub] in IH end.
      destruct (IH ltac:(lia)) as [H1 [H2 H3]].
      split; [rewrite H1; lia|]. split.
      * cbn [length app]. rewrite H2. lia.
      * intros _. destruct k as [|k]; [cbn in E; injection E as <- _; reflexivity|].
        apply H3. lia.
Qed.

(** When more than 50 subscriptions are tracked, the resubscription
    after a reconnect raises the 50-instrument [ValueError], which
    [_on_close] catches and logs: the client is connected but the
    server was sent no subscription, while [self.subscriptions] still
    lists all of them. *)
Theorem reconnect_over_50_fails (c : Level3Client) :
  (reconnect_attempts c < max_reconnect_attempts)%nat ->
  (50 < size (subscriptions (ws c)))%nat ->
  _on_close c true
  = (_on_open (set_reconnect_attempts
       (set_ws c {| is_connected := false; subscriptions := subscriptions (ws c) |})
       (S (reconnect_attempts c))),
     ["Level 3 reconnection failed: ValueError: Maximum 50 instruments allowed per connection"%string]).
Proof.
  intros Ha Hs. unfold _on_close. cbn [set_ws reconnect_attempts ws].
  apply Nat.ltb_lt in Ha. rewrite Ha.
  cbn [_on_open set_reconnect_attempts set_ws ws subscriptions].
  destruct (Nat.eqb_spec (size (subscriptions (ws c))) 0) as [H0|_]; [lia|].
  unfold subscribe_instruments, tracked_instruments. cbn [is_connected negb subscriptions].
  rewrite length_map, length_map_to_list.
  apply Nat.ltb_lt in Hs. rewrite Hs. reflexivity.
Qed.


(** [subscribe_instruments] keeps [self.subscriptions] well keyed (each
    entry under [segment:security_id] of its value, supported segment);
    when it succeeds the client is connected, no earlier subscription is
    lost and every requested instrument is tracked. *)
Theorem subscribe_instruments_tracks (w w' : WsClient) (l : list (string * string)) :
  well_keyed (subscriptions w) -> subscribe_instruments w l = Ok w' ->
  well_keyed (subscriptions w') /\ is_connected w' = true
  /\ (forall k, is_Some (subscriptions w !! k) -> is_Some (subscriptions w' !! k))
  /\ (forall sid seg, In (sid, seg) l ->
        is_Some (subscriptions w' !! (seg ++ ":" ++ sid)%string)).
Proof.
  intros Hw. unfold subscribe_instruments.
  destruct (is_connected w) eqn:Hc; cbn [negb]; [|discriminate].
  destruct (Nat.ltb 50 (length l)); [discriminate|].
  destruct (forallb _ l) eqn:Hf; cbn [negb]; [|discriminate].
  intros Heq. injection Heq as <-. cbn [subscriptions is_connected].
  destruct (fold_track_spec l (subscriptions w) Hw Hf) as [H1 [H2 H3]].
  auto.
Qed.

End Level3Claims.

Module Level3Examples.
Import Manager Level3 Level3Extras.
Local Open Scope Q_scope.

Definition ws_of (r : result WsClient) (w : WsClient) : WsClient :=
  match r with Ok w' => w' | Raise _ => w end.

Definition fresh_ws : WsClient := {| is_connected := true; subscriptions := ∅ |}.

Definition equities (lo n : nat) : list (string * string) :=
  map (fun i => (str_of_Z (Z.of_nat i), "NSE_EQ"%string)) (seq lo n).

(** Two batches of 30 instruments, each accepted on its own. *)
Definition ws_60 : WsClient :=
  let w1 := ws_of (subscribe_instruments fresh_ws (equities 1 30)) fresh_ws in
  ws_of (subscribe_instruments w1 (equities 31 30)) w1.

Definition ws_2 : WsClient :=
  ws_of (subscribe_instruments fresh_ws
           [("1333", "NSE_EQ"); ("35001", "NSE_FNO")]%string) fresh_ws.

Definition client (w : WsClient) (errors attempts : nat) : Level3Client :=
  {| ws := w; message_queue := []; message_count := 0; last_rate_check := 0;
     error_count := errors; last_error_time := 0; stop_processing := false;
     reconnect_attempts := attempts |}.

Lemma well_keyed_empty : well_keyed ∅.
Proof. apply map_Forall_empty. Qed.

Lemma subscribe_instruments_tracks_witness :
  (well_keyed (subscriptions fresh_ws)
   /\ subscribe_instruments fresh_ws [("1333", "NSE_EQ"); ("35001", "NSE_FNO")]%string
      = Ok ws_2)
  /\ well_keyed (subscriptions ws_2) /\ is_connected ws_2 = true
  /\ (forall k, is_Some (subscriptions fresh_ws !! k) -> is_Some (subscriptions ws_2 !! k))
  /\ (forall sid seg, In (sid, seg) [("1333", "NSE_EQ"); ("35001", "NSE_FNO")]%string ->
        is_Some (subscriptions ws_2 !! (seg ++ ":" ++ sid)%string)).
Proof.
  assert (H : subscribe_instruments fresh_ws [("1333", "NSE_EQ"); ("35001", "NSE_FNO")]%string
              = Ok ws_2) by reflexivity.
  split; [split; [exact well_keyed_empty | exact H]|].
  exact (Level3Claims.subscribe_instruments_tracks fresh_ws ws_2 _ well_keyed_empty H).
Defined.

Lemma error_burst_disconnects_witness :
  (Qlt_bool error_reset_time (400 - last_error_time (client fresh_ws 7 0)) = true
   /\ within_reset 400 [410; 420; 430; 440; 450; 460; 470; 480; 490; 500; 510] = true)
  /\ snd (handle_errors (client fresh_ws 7 0)
            [400; 410; 420; 430; 440; 450; 460; 470; 480; 490; 500; 510])
     = map (Nat.leb max_errors) (seq 1 12).
Proof.
  split; [split; reflexivity|].
  apply (Level3Claims.error_burst_disconnects (client fresh_ws 7 0) 400
           [410; 420; 430; 440; 450; 460; 470; 480; 490; 500; 510]);
    reflexivity.
Defined.

Lemma reconnect_attempts_bounded_witness :
  (reconnect_attempts (client fresh_ws 0 2) <= max_reconnect_attempts)%nat
  /\ let '(c', logs) := failed_closes (client fresh_ws 0 2) 7 in
     reconnect_attempts c' = Nat.min max_reconnect_attempts (2 + 7)
     /\ length logs = Nat.min 7 (max_reconnect_attempts - 2)
     /\ (0 < 7 -> is_connected (ws c') = false)%nat.
Proof.
  assert (H : (reconnect_attempts (client fresh_ws 0 2) <= max_reconnect_attempts)%nat)
    by (cbv; lia).
  split; [exact H|].
  exact (Level3Claims.reconnect_attempts_bounded (client fresh_ws 0 2) 7 H).
Defined.

Lemma reconnect_over_50_fails_witness :
  ((reconnect_attempts (client ws_60 0 1) < max_reconnect_attempts)%nat
   /\ (50 < size (subscriptions (ws (client ws_60 0 1))))%nat)
  /\ _on_close (client ws_60 0 1) true
     = (_on_open (set_reconnect_attempts
          (set_ws (client ws_60 0 1)
             {| is_connected := false; subscriptions := subscriptions ws_60 |}) 2),
        ["Level 3 reconnection failed: ValueError: Maximum 50 instruments allowed per connection"%string]).
Proof.
  assert (H1 : (reconnect_attempts (client ws_60 0 1) < max_reconnect_attempts)%nat)
    by (cbv; lia).
  assert (H2 : (50 < size (subscriptions (ws (client ws_60 0 1))))%nat)
    by (apply Nat.ltb_lt; vm_compute; reflexivity).
  split; [split; [exact H1 | exact H2]|].
  exact (Level3Claims.reconnect_over_50_fails (client ws_60 0 1) H1 H2).
Defined.

End Level3Examples.

Module FeedClientFacts.
Import FeedClient.

Lemma chunks_spec fuel : forall l, (length l <= fuel)%nat ->
  concat (chunks fuel l) = l
  /\ Forall (fun ch => (0 < length ch <= 100)%nat) (chunks fuel l)
  /\ length (chunks fuel l) = ((length l + 99) / 100)%nat.
Proof.
  induction fuel as [|f IH]; intros l Hl.
  - destruct l; [|cbn in Hl; lia]. repeat split; constructor.
  - destruct l as [|x l']; [repeat split; constructor|].
    cbn [chunks]. set (l := x :: l') in *.
    destruct (IH (skipn 100 l)) as [H1 [H2 H3]]; [rewrite length_skipn; cbn in Hl |- *; lia|].
    split; [cbn [concat]; rewrite H1; apply firstn_skipn|].
    split.
    + constructor; [|exact H2]. rewrite length_firstn. cbn [length l]. lia.
    + cbn [length]. rewrite H3, length_skipn.
      destruct (Nat.le_gt_cases (length l) 100) as [Hs|Hb].
      * replace (length l - 100)%nat with 0%nat by lia. cbn [Nat.add].
        change (99 / 100)%nat with 0%nat.
        apply (Nat.div_unique _ 100 1 (length l - 1)); cbn [length l] in *; lia.
      * replace (length l + 99)%nat with (1 * 100 + (length l - 100 + 99))%nat by lia.
        rewrite Nat.div_add_l by lia. reflexivity.
Qed.




End FeedClientFacts.

Module FeedClientClaims.
Import FeedClient FeedClientFacts.

(** [subscribe] splits the instruments into consecutive requests of at
    most 100 (none empty), ceil(n/100) of them, which together list every
    instrument once, in order. *)
Theorem subscribe_chunks (instruments : list (string * string)) :
  let chs := chunks (length instruments) instruments in
  concat chs = instruments
  /\ Forall (fun ch => (0 < length ch <= 100)%nat) chs
  /\ length chs = ((length instruments + 99) / 100)%nat.
Proof. apply chunks_spec. lia. Qed.


End FeedClientClaims.

Module ManagerOpsFacts.
Import Assembler Manager ManagerOps.



End ManagerOpsFacts.

Module ManagerOpsClaims.
Import Assembler Manager ManagerOps ManagerFacts ManagerOpsFacts.

(** An update stores the response under its security id (replacing any
    older one) and drops that id's cached analysis; the data of every
    other security is untouched, and the id now appears among the
    subscribed securities. *)
Theorem update_then_get (m : MarketDepthManager) (r : MarketDepth20Response) :
  let m' := fst (_on_depth_update m r) in
  (forall sid, get_depth_data m' sid
     = if String.eqb sid (r_security_id r) then Some r else get_depth_data m sid)
  /\ get_all_subscribed_securities m'
     = {[ r_security_id r ]} ∪ get_all_subscribed_securities m
  /\ (r_security_id r ∉ analysis_cache m').
Proof.
  cbv zeta. unfold _on_depth_update, get_depth_data, get_all_subscribed_securities.
  cbn [fst depth_data analysis_cache]. split; [|split].
  - intros sid. destruct (String.eqb_spec sid (r_security_id r)) as [->|Hne].
    + apply lookup_insert_eq.
    + apply lookup_insert_ne. congruence.
  - apply dom_insert_L.
  - set_solver.
Qed.



(** After [disconnect] the manager holds no data and no subscribers,
    and every later [subscribe_depth] raises "WebSocket not connected"
    and leaves it as it is. *)
Theorem disconnect_then_subscribe (m : MarketDepthManager) (sid seg : string)
  (cb : option Callback) :
  let md := disconnect m in
  get_depth_data md sid = None
  /\ get_all_subscribed_securities md = ∅
  /\ subscribe_depth md sid seg cb
     = (md, Raise "MarketDataError: WebSocket not connected"%string).
Proof.
  cbv zeta. unfold get_depth_data, get_all_subscribed_securities, disconnect.
  cbn [depth_data]. split; [apply lookup_empty|]. split; [apply dom_empty_L|].
  reflexivity.
Qed.


End ManagerOpsClaims.

Module ManagerOpsExamples.
Import Depth Assembler Manager.





End ManagerOpsExamples.

Module AnalysisOpsFacts.
Import Analysis AnalysisFacts AnalysisOps.
Local Open Scope Q_scope.

Lemma sum_qty_fold (ls : list Level) : forall acc,
  fold_left (fun acc l => acc + qty l) ls acc == acc + sum_qty ls.
Proof.
  unfold sum_qty. induction ls as [|l ls IH]; intros acc; cbn [fold_left]; [ring|].
  rewrite (IH (acc + qty l)), (IH (0 + qty l)). ring.
Qed.

Lemma sum_qty_cons l ls : sum_qty (l :: ls) == qty l + sum_qty ls.
Proof. unfold sum_qty at 1. cbn [fold_left]. rewrite sum_qty_fold. ring. Qed.

Lemma sum_qty_app l1 l2 : sum_qty (l1 ++ l2) == sum_qty l1 + sum_qty l2.
Proof. unfold sum_qty at 1. rewrite fold_left_app. apply sum_qty_fold. Qed.



Lemma div_nonneg (a b : Q) : 0 <= a -> 0 < b -> 0 <= a / b.
Proof. intros Ha Hb. apply Qle_shift_div_l; [exact Hb|]. rewrite Qmult_0_l. exact Ha. Qed.

Lemma fold_max_const (g : Q) (xs : list Q) : forall x,
  x == g -> Forall (fun y => y == g) xs -> fold_left Qmax xs x == g.
Proof.
  induction xs as [|y xs IH]; intros x Hx Hall; [exact Hx|].
  inversion Hall as [|? ? Hy Hr]; subst. cbn [fold_left]. apply IH; [|exact Hr].
  rewrite Hx, Hy. apply Q.max_id.
Qed.

Lemma fold_min_const (g : Q) (xs : list Q) : forall x,
  x == g -> Forall (fun y => y == g) xs -> fold_left Qmin xs x == g.
Proof.
  induction xs as [|y xs IH]; intros x Hx Hall; [exact Hx|].
  inversion Hall as [|? ? Hy Hr]; subst. cbn [fold_left]. apply IH; [|exact Hr].
  rewrite Hx, Hy. apply Q.min_id.
Qed.

Lemma fold_plus_const (g : Q) (xs : list Q) : forall acc,
  Forall (fun y => y == g) xs ->
  fold_left Qplus xs acc == acc + inject_Z (Z.of_nat (length xs)) * g.
Proof.
  induction xs as [|y xs IH]; intros acc Hall; cbn [fold_left length].
  - unfold inject_Z. cbn. ring.
  - inversion Hall as [|? ? Hy Hr]; subst. rewrite (IH _ Hr), Hy.
    rewrite Nat2Z.inj_succ, <- Z.add_1_r, inject_Z_plus. ring.
Qed.

(** Evenly spaced prices have consistency 1. *)
Lemma consistency_const (g g0 : Q) (gs : list Q) :
  g0 == g -> Forall (fun y => y == g) gs -> consistency g0 gs == 1.
Proof.
  intros H0 Hall. unfold consistency.
  assert (Hmax : list_max g0 gs == g) by (apply fold_max_const; assumption).
  assert (Hmin : list_min g0 gs == g) by (apply fold_min_const; assumption).
  destruct (Qlt_bool 0 _) eqn:E; [|reflexivity].
  assert (E2 : list_max g0 gs - list_min g0 gs == 0) by (rewrite Hmax, Hmin; ring).
  rewrite E2. unfold Qdiv. rewrite Qmult_0_l. ring.
Qed.

Lemma adjacent_gaps_map_seq (f : Q -> Q -> Q) (h : nat -> Q) n : forall k,
  adjacent_gaps f (map h (seq k (S n))) = map (fun i => f (h i) (h (S i))) (seq k n).
Proof.
  induction n as [|n IH]; intros k; [reflexivity|].
  change (map h (seq k (S (S n)))) with (h k :: map h (seq (S k) (S n))).
  change (seq k (S n)) with (k :: seq (S k) n). rewrite map_cons, <- IH.
  reflexivity.
Qed.

Lemma efficiency_clamp (e : Q) : 0 <= Qmax 0 (Qmin e 100) <= 100.
Proof.
  split; [apply Q.le_max_l|]. apply Q.max_lub; [discriminate|apply Q.le_min_r].
Qed.

Lemma inject_succ (i : nat) : inject_Z (Z.of_nat (S i)) == inject_Z (Z.of_nat i) + 1.
Proof. rewrite Nat2Z.inj_succ, <- Z.add_1_r, inject_Z_plus. reflexivity. Qed.


Lemma sum_filter_le (f : Level -> bool) (ls : list Level) :
  sum_qty (List.filter f ls) <= sum_qty ls.
Proof.
  induction ls as [|l ls IH]; [apply Qle_refl|]. cbn [List.filter].
  rewrite sum_qty_cons. pose proof (qty_nonneg l).
  destruct (f l); [rewrite sum_qty_cons|]; lra.
Qed.

Lemma filter_count_sum (c : Q) (ls : list Level) :
  let fl := List.filter (fun l => Qlt_bool c (qty l)) ls in
  fl = [] \/ inject_Z (Z.of_nat (length fl)) * c < sum_qty fl.
Proof.
  cbv zeta. induction ls as [|l ls IH]; [left; reflexivity|]. cbn [List.filter].
  destruct (Qlt_bool c (qty l)) eqn:E; [|exact IH].
  right. apply Qlt_bool_iff in E. rewrite sum_qty_cons. cbn [length].
  rewrite inject_succ.
  destruct IH as [H|H].
  - rewrite H. cbn [length Z.of_nat]. change (sum_qty []) with 0.
    change (inject_Z (Z.of_nat 0)) with 0. lra.
  - lra.
Qed.

Lemma zone_count (ls : list Level) (f : Level -> bool) : forall k,
  length (map fst (List.filter (fun '(_, l) => f l) (combine (seq k (length ls)) ls)))
  = length (List.filter f ls).
Proof.
  induction ls as [|l ls IH]; intros k; [reflexivity|].
  cbn [length seq combine List.filter]. destruct (f l); cbn [map length]; rewrite IH; reflexivity.
Qed.

Lemma zone_bound (ls : list Level) :
  zone_indices ls = [] \/ (2 * length (zone_indices ls) < length ls)%nat.
Proof.
  unfold zone_indices.
  destruct ls as [|l0 rest] eqn:Els; [left; reflexivity|]. cbv iota beta. rewrite <- Els.
  set (n := length ls).
  set (avg := sum_qty ls / inject_Z (Z.of_nat n)).
  assert (Hn : 0 < inject_Z (Z.of_nat n))
    by (change 0 with (inject_Z 0); rewrite <- Zlt_Qlt; unfold n; rewrite Els;
        cbn [length]; lia).
  assert (Havg : 0 <= avg) by (apply div_nonneg; [apply sum_qty_nonneg | exact Hn]).
  assert (HS : sum_qty ls == inject_Z (Z.of_nat n) * avg)
    by (unfold avg; field; intros H; rewrite H in Hn; discriminate).
  match goal with |- context [List.filter ?p (combine _ _)] =>
    change p with (fun '((_, l) : nat * Level) => Qlt_bool (avg * 2) (qty l)) end.
  unfold n in *.
  destruct (filter_count_sum (avg * 2) ls) as [H|H].
  - left. apply length_zero_iff_nil. rewrite zone_count, H. reflexivity.
  - right. rewrite zone_count.
    set (k := length (List.filter (fun l => Qlt_bool (avg * 2) (qty l)) ls)) in *.
    pose proof (sum_filter_le (fun l => Qlt_bool (avg * 2) (qty l)) ls) as Hle.
    assert (Hlt : inject_Z (Z.of_nat (2 * k)) * avg < inject_Z (Z.of_nat (length ls)) * avg).
    { rewrite Nat2Z.inj_mul, inject_Z_mult. change (inject_Z (Z.of_nat 2)) with 2.
      assert (E : 2 * inject_Z (Z.of_nat k) * avg == inject_Z (Z.of_nat k) * (avg * 2))
        by ring.
      rewrite E, <- HS. exact (Qlt_le_trans _ _ _ H Hle). }
    destruct (Qle_lt_or_eq _ _ Havg) as [Hp|H0].
    + apply Qmult_lt_r in Hlt; [|exact Hp]. rewrite <- Zlt_Qlt in Hlt. lia.
    + rewrite <- H0 in Hlt. rewrite !Qmult_0_r in Hlt. exfalso. exact (Qlt_irrefl _ Hlt).
Qed.


Definition sum_entries (l : list Entry) : Z :=
  fold_right (fun e acc => (entry_qty e + acc)%Z) 0%Z l.

Definition entries_of (side : string) (ls : list Level) : list Entry :=
  map (fun l => (price l, Z.of_N (quantity l), side)) ls.

Lemma insert_by_price_perm x l : Permutation (insert_by_price x l) (x :: l).
Proof.
  induction l as [|y l IH]; [reflexivity|]. cbn [insert_by_price].
  destruct (Qle_bool _ _); [|reflexivity].
  rewrite IH. apply perm_swap.
Qed.

Lemma sort_by_price_perm l : Permutation (sort_by_price l) l.
Proof.
  unfold sort_by_price. rewrite <- (app_nil_r l) at 2. generalize (@nil Entry) as acc.
  induction l as [|x l IH]; intros acc; [reflexivity|]. cbn [fold_left].
  rewrite IH, insert_by_price_perm. symmetry. apply Permutation_middle.
Qed.

Lemma sum_entries_perm l1 l2 : Permutation l1 l2 -> sum_entries l1 = sum_entries l2.
Proof. induction 1; unfold sum_entries in *; cbn [fold_right]; lia. Qed.

Lemma sum_entries_app l1 l2 : sum_entries (l1 ++ l2) = (sum_entries l1 + sum_entries l2)%Z.
Proof. induction l1; unfold sum_entries in *; cbn [fold_right app]; lia. Qed.

Lemma sum_entries_levels side ls : inject_Z (sum_entries (entries_of side ls)) == sum_qty ls.
Proof.
  induction ls as [|l ls IH]; [reflexivity|].
  cbn [entries_of map sum_entries fold_right]. rewrite sum_qty_cons, inject_Z_plus.
  fold (sum_entries (entries_of side ls)). unfold entries_of in IH. rewrite IH.
  reflexivity.
Qed.

Lemma entries_nonneg side ls : Forall (fun e => (0 <= entry_qty e)%Z) (entries_of side ls).
Proof. apply Forall_forall. intros e He. apply list_elem_of_In, in_map_iff in He as [l [<- _]].
  cbn. lia. Qed.

Lemma curve_loop_length b cum l : length (curve_loop b cum l) = length l.
Proof. revert cum. induction l; intros cum; cbn; [reflexivity|]. f_equal. apply IHl. Qed.

Lemma curve_loop_impacts b cum l : Forall (fun p => 0 <= snd p) (curve_loop b cum l).
Proof.
  revert cum. induction l as [|e l IH]; intros cum; cbn [curve_loop]; constructor; [|apply IH].
  cbn [snd]. destruct (Qlt_bool 0 b) eqn:E; [|apply Qle_refl].
  apply Qlt_bool_iff in E. apply div_nonneg; [apply Qabs_nonneg | exact E].
Qed.

Lemma curve_loop_sorted b l : forall cum,
  Forall (fun e => (0 <= entry_qty e)%Z) l ->
  Sorted Z.le (cum :: map fst (curve_loop b cum l)).
Proof.
  induction l as [|e l IH]; intros cum H; cbn [curve_loop map]; [repeat constructor|].
  inversion H as [|? ? He Hr]; subst.
  constructor; [apply IH, Hr|]. constructor. cbn [fst]. lia.
Qed.

Lemma last_default {A} (l : list A) (d d' : A) :
  l <> [] -> List.last l d = List.last l d'.
Proof.
  induction l as [|a [|b l] IH]; intros H; [congruence|reflexivity|].
  cbn [List.last]. apply IH. discriminate.
Qed.

Lemma curve_loop_bounds b l : forall cum,
  Forall (fun e => (0 <= entry_qty e)%Z) l ->
  Forall (fun p => (cum <= fst p <= cum + sum_entries l)%Z) (curve_loop b cum l)
  /\ List.last (map fst (curve_loop b cum l)) cum = (cum + sum_entries l)%Z.
Proof.
  induction l as [|e l IH]; intros cum H; cbn [curve_loop map]; [split; [constructor|cbn; lia]|].
  inversion H as [|? ? He Hr]; subst.
  destruct (IH (cum + entry_qty e)%Z Hr) as [H1 H2].
  assert (Hs : (0 <= sum_entries l)%Z).
  { clear -Hr. induction Hr; unfold sum_entries in *; cbn [fold_right]; lia. }
  split.
  - constructor; [cbn [fst sum_entries fold_right]; fold (sum_entries l); lia|].
    eapply Forall_impl; [exact H1|]. intros p Hp. cbv beta in Hp |- *.
    cbn [sum_entries fold_right]. fold (sum_entries l). lia.
  - destruct l as [|e' l].
    + cbn. lia.
    + change (List.last (map fst (curve_loop b (cum + entry_qty e)%Z (e' :: l))) cum
              = (cum + sum_entries (e :: e' :: l))%Z).
      rewrite (last_default _ cum (cum + entry_qty e)%Z) by (cbn; discriminate).
      rewrite H2. cbn [sum_entries fold_right]. lia.
Qed.


Lemma first_jump_in prev rest q :
  first_jump prev rest = Some q -> exists x, In x (prev :: rest) /\ fst x = q.
Proof.
  revert prev. induction rest as [|cur r IH]; intros prev H; [discriminate|].
  cbn [first_jump] in H. destruct (Qlt_bool _ _).
  - injection H as <-. exists prev. split; [left|]; reflexivity.
  - destruct (IH cur H) as [x [Hx Hq]]. exists x. split; [right; exact Hx | exact Hq].
Qed.

Lemma last_in {A} (l : list A) (d : A) : In (List.last l d) (d :: l).
Proof.
  induction l as [|a [|b l] IH]; [left; reflexivity|right; left; reflexivity|].
  cbn [List.last] in *. destruct IH as [H|H]; [left; exact H| right; right; exact H].
Qed.

Lemma optimal_order_size_bounds (c : list (Z * Q)) (T : Z) :
  (0 <= T)%Z -> Forall (fun p => (0 <= fst p <= T)%Z) c ->
  (0 <= _calculate_optimal_order_size c <= T)%Z.
Proof.
  intros HT Hc. unfold _calculate_optimal_order_size.
  destruct c as [|p r]; [lia|]. rewrite List.Forall_forall in Hc.
  destruct (first_jump p r) as [q|] eqn:E.
  - destruct (first_jump_in p r q E) as [x [Hx <-]]. exact (Hc x Hx).
  - assert (Hl : In (List.last (p :: r) p) (p :: r)).
    { destruct (last_in (p :: r) p) as [H|H]; [rewrite <- H; left; reflexivity|exact H]. }
    specialize (Hc _ Hl).
    rewrite Z.quot_div_nonneg by lia.
    split; [apply Z.div_pos; lia|]. transitivity (fst (List.last (p :: r) p)); [|lia].
    apply Z.div_le_upper_bound; lia.
Qed.

Lemma impact_curve_setup (bid ask : list Level) :
  let all := sort_by_price (entries_of "bid" bid ++ entries_of "ask" ask) in
  length all = (length bid + length ask)%nat
  /\ Forall (fun e => (0 <= entry_qty e)%Z) all
  /\ inject_Z (sum_entries all) == sum_qty (bid ++ ask)
  /\ _calculate_market_impact_curve bid ask
     = match all with
       | [] => []
       | e0 :: _ => curve_loop (entry_price (nth (Nat.div (length all) 2) all e0)) 0 all
       end.
Proof.
  cbv zeta. pose proof (sort_by_price_perm (entries_of "bid" bid ++ entries_of "ask" ask)) as P.
  split; [|split; [|split]].
  - rewrite (Permutation_length P), length_app. unfold entries_of. rewrite !length_map.
    reflexivity.
  - apply Forall_forall. intros e He. apply list_elem_of_In in He.
    apply (Permutation_in _ P), in_app_or in He.
    destruct He as [He|He]; [pose proof (entries_nonneg "bid" bid) as F
                            |pose proof (entries_nonneg "ask" ask) as F];
      rewrite List.Forall_forall in F; exact (F e He).
  - rewrite (sum_entries_perm _ _ P), sum_entries_app, inject_Z_plus,
      !sum_entries_levels, sum_qty_app. reflexivity.
  - reflexivity.
Qed.


(** Ladders whose adjacent gaps all have the same size on each side get
    the full efficiency score. *)
Lemma even_gaps_efficiency (bid ask : list Level) (hb ha : nat -> Q) (gb ga : Q) :
  (2 <= length bid)%nat -> (2 <= length ask)%nat ->
  map price bid = map hb (seq 0 (length bid)) ->
  map price ask = map ha (seq 0 (length ask)) ->
  (forall i, Qabs (hb i - hb (S i)) == gb) ->
  (forall i, Qabs (ha (S i) - ha i) == ga) ->
  _calculate_market_efficiency bid ask == 100.
Proof.
  intros Hlb Hla Hb Ha Gb Ga.
  destruct bid as [|b0 bid]; [cbn in Hlb; lia|].
  destruct ask as [|a0 ask]; [cbn in Hla; lia|].
  unfold _calculate_market_efficiency. cbv zeta.
  rewrite Hb, Ha. cbn [length]. rewrite !adjacent_gaps_map_seq.
  destruct (length bid) as [|nb] eqn:Eb; [cbn in Hlb; lia|].
  destruct (length ask) as [|na] eqn:Ea; [cbn in Hla; lia|].
  cbn [seq map].
  assert (Cb : consistency (Qabs (hb 0%nat - hb 1%nat))
                 (map (fun i => Qabs (hb i - hb (S i))) (seq 1 nb)) == 1).
  { apply (consistency_const gb); [apply Gb|].
    apply Forall_forall. intros x Hx. apply list_elem_of_In, in_map_iff in Hx as [i [<- _]].
    apply Gb. }
  assert (Ca : consistency (Qabs (ha 1%nat - ha 0%nat))
                 (map (fun i => Qabs (ha (S i) - ha i)) (seq 1 na)) == 1).
  { apply (consistency_const ga); [apply Ga|].
    apply Forall_forall. intros x Hx. apply list_elem_of_In, in_map_iff in Hx as [i [<- _]].
    apply Ga. }
  rewrite Cb, Ca. apply Qeq_bool_iff. reflexivity.
Qed.




End AnalysisOpsFacts.

Module AnalysisOpsClaims.
Import Analysis AnalysisFacts AnalysisOps AnalysisOpsFacts.
Local Open Scope Q_scope.

(** The order-flow imbalance of [analyze_market_microstructure] lies in
    [-1, 1] and is positive exactly when the bid side holds more
    quantity than the ask side (an empty book gives 0). *)
Theorem order_flow_imbalance_range (bid ask : list Level) :
  let ofi := order_flow_imbalance_of bid ask in
  -1 <= ofi <= 1 /\ (0 < ofi <-> sum_qty ask < sum_qty bid).
Proof.
  cbv zeta. unfold order_flow_imbalance_of.
  pose proof (sum_qty_nonneg bid) as Hb. pose proof (sum_qty_nonneg ask) as Ha.
  set (b := sum_qty bid) in *. set (a := sum_qty ask) in *.
  destruct (Qlt_bool 0 (b + a)) eqn:E.
  - apply Qlt_bool_iff in E. split; [split|].
    + apply Qle_shift_div_l; [exact E|]. lra.
    + apply Qle_shift_div_r; [exact E|]. lra.
    + split; intros H.
      * assert (Hm : b - a == (b - a) / (b + a) * (b + a)) by (field; lra).
        assert (0 < (b - a) / (b + a) * (b + a)) by (apply Qmult_lt_0_compat; assumption).
        lra.
      * apply Qlt_shift_div_l; [exact E|]. lra.
  - assert (Hn : ~ 0 < b + a) by (intros H; apply Qlt_bool_iff in H; congruence).
    split; [split; lra|]. split; intros H; lra.
Qed.


(** [_calculate_market_efficiency] always lies in [0, 100], and is the
    neutral 50 when either side has fewer than two levels (no gaps to
    compare). *)
Theorem market_efficiency_range (bid ask : list Level) :
  0 <= _calculate_market_efficiency bid ask <= 100
  /\ ((length bid < 2 \/ length ask < 2)%nat -> _calculate_market_efficiency bid ask == 50).
Proof.
  split.
  - unfold _calculate_market_efficiency.
    destruct bid; [split; discriminate|]. destruct ask; [split; discriminate|].
    apply efficiency_clamp.
  - intros H. unfold _calculate_market_efficiency.
    destruct bid as [|b0 [|b1 bid]]; [reflexivity| |].
    + destruct ask as [|a0 ask]; reflexivity.
    + destruct ask as [|a0 [|a1 ask]]; [reflexivity|reflexivity|].
      cbn in H. lia.
Qed.

(** Books whose prices are whole numbers with a constant step on each
    side (bids stepping down by [db], asks stepping up by [da], any
    step, zero included) get the full efficiency score of 100, provided
    each side has at least two levels.  Whole-number prices (below
    2^53) are held exactly by the code's floats, so every gap it
    computes is equal and the score is exactly 100 there too. *)
Theorem market_efficiency_integer_ladder (bid ask : list Level) (pb db pa da : Z) :
  (2 <= length bid)%nat -> (2 <= length ask)%nat ->
  map price bid = map (fun i => inject_Z (pb - Z.of_nat i * db)) (seq 0 (length bid)) ->
  map price ask = map (fun i => inject_Z (pa + Z.of_nat i * da)) (seq 0 (length ask)) ->
  _calculate_market_efficiency bid ask == 100.
Proof.
  intros Hlb Hla Hb Ha.
  apply (even_gaps_efficiency bid ask _ _ (Qabs (inject_Z db)) (Qabs (inject_Z da))
           Hlb Hla Hb Ha).
  - intros i. apply Qabs_wd. unfold Z.sub.
    rewrite !inject_Z_plus, !inject_Z_opp, !inject_Z_mult, inject_succ. ring.
  - intros i. apply Qabs_wd.
    rewrite !inject_Z_plus, !inject_Z_mult, inject_succ. ring.
Qed.


(** [_calculate_price_impact] never exceeds 1 (the cap), whatever the
    book; it is never negative when the book is not crossed (best ask
    not below best bid), and it is 0 when a side is empty. *)
Theorem price_impact_bounds (bid ask : list Level) :
  _calculate_price_impact bid ask <= 1
  /\ ((forall b0 a0, hd_error bid = Some b0 -> hd_error ask = Some a0 ->
                     price b0 <= price a0) ->
      0 <= _calculate_price_impact bid ask).
Proof.
  split.
  - unfold _calculate_price_impact.
    destruct bid as [|b0 bid]; [discriminate|].
    destruct ask as [|a0 ask]; [discriminate|].
    apply Q.le_min_r.
  - intros H. unfold _calculate_price_impact.
    destruct bid as [|b0 bid]; [discriminate|].
    destruct ask as [|a0 ask]; [discriminate|].
    specialize (H b0 a0 eq_refl eq_refl). cbv zeta.
    apply Q.min_glb; [|discriminate].
    destruct (Qlt_bool 0 _) eqn:E; [|lra].
    apply Qlt_bool_iff in E.
    apply Qmult_le_0_compat; [apply div_nonneg; [lra | exact E] | discriminate].
Qed.

(** On a book whose bids are all at or below the best bid and whose asks
    are all at or above the best ask (and not crossed), the stop loss of
    a BUY lies at least one spread below the best bid and that of a SELL
    at least one spread above the best ask; HOLD has none. *)
Theorem stop_loss_beyond_spread (d : Response) (b0 a0 : Level) (bs as_ : list Level) :
  bid_levels d = b0 :: bs -> ask_levels d = a0 :: as_ ->
  price b0 <= price a0 ->
  Forall (fun l => price l <= price b0) bs -> Forall (fun l => price a0 <= price l) as_ ->
  let spread := price a0 - price b0 in
  match _calculate_stop_loss d BUY with
  | Some s => s <= price b0 - spread
  | None => False
  end
  /\ match _calculate_stop_loss d SELL with
     | Some s => price a0 + spread <= s
     | None => False
     end
  /\ _calculate_stop_loss d HOLD = None.
Proof.
  intros Hb Ha Hs Fb Fa. cbv zeta. unfold _calculate_stop_loss. rewrite Hb, Ha.
  cbn [skipn]. rewrite !drop_0. split; [|split; [|reflexivity]].
  - match goal with |- context [find ?f (firstn 5 bs)] =>
      destruct (find f (firstn 5 bs)) as [l|] eqn:E; [|lra] end.
    apply find_some in E as [Hin _].
    apply (Forall_take _ 5) in Fb. rewrite List.Forall_forall in Fb.
    specialize (Fb l Hin). lra.
  - match goal with |- context [find ?f (firstn 5 as_)] =>
      destruct (find f (firstn 5 as_)) as [l|] eqn:E; [|lra] end.
    apply find_some in E as [Hin _].
    apply (Forall_take _ 5) in Fa. rewrite List.Forall_forall in Fa.
    specialize (Fa l Hin). lra.
Qed.


(** [detect_demand_supply_zones] (threshold 2.0) flags fewer than half
    of the levels of a side: a zone needs more than twice the side's
    average quantity, so either no zone is found or twice the number of
    zones is below the number of levels (at most 9 of 20). *)
Theorem zones_fewer_than_half (d : Response) :
  let '(demand, supply) := detect_demand_supply_zones d in
  (demand = [] \/ (2 * length demand < length (bid_levels d))%nat)
  /\ (supply = [] \/ (2 * length supply < length (ask_levels d))%nat).
Proof. unfold detect_demand_supply_zones. split; apply zone_bound. Qed.


(** [_calculate_market_impact_curve] has one point per level of the
    two sides; its cumulative quantities never decrease, start from a
    non-negative value and end at the total liquidity [analyze_liquidity]
    reports; every impact is non-negative. *)
Theorem impact_curve_shape (bid ask : list Level) :
  let c := _calculate_market_impact_curve bid ask in
  length c = (length bid + length ask)%nat
  /\ Sorted Z.le (0%Z :: map fst c)
  /\ inject_Z (List.last (map fst c) 0%Z) == sum_qty (bid ++ ask)
  /\ Forall (fun p => 0 <= snd p) c.
Proof.
  cbv zeta. destruct (impact_curve_setup bid ask) as [Hlen [Hnn [Hsum ->]]].
  revert Hlen Hnn Hsum.
  generalize (sort_by_price (entries_of "bid" bid ++ entries_of "ask" ask)) as all.
  intros all Hlen Hnn Hsum.
  destruct all as [|e0 rest] eqn:E.
  - split; [exact Hlen|]. split; [repeat constructor|]. split; [exact Hsum|constructor].
  - rewrite <- E in *.
    set (b := entry_price (nth (Nat.div (length all) 2) all e0)).
    split; [rewrite curve_loop_length; exact Hlen|].
    split; [apply curve_loop_sorted, Hnn|].
    split; [|apply curve_loop_impacts].
    destruct (curve_loop_bounds b all 0%Z Hnn) as [_ Hl]. rewrite Hl. exact Hsum.
Qed.

(** The optimal order size of [analyze_liquidity] is never negative and
    never more than the total liquidity of the book. *)
Theorem optimal_order_size_range (bid ask : list Level) :
  let s := _calculate_optimal_order_size (_calculate_market_impact_curve bid ask) in
  (0 <= s)%Z /\ inject_Z s <= sum_qty (bid ++ ask).
Proof.
  cbv zeta. destruct (impact_curve_setup bid ask) as [_ [Hnn [Hsum ->]]].
  revert Hnn Hsum.
  generalize (sort_by_price (entries_of "bid" bid ++ entries_of "ask" ask)) as all.
  intros all Hnn Hsum.
  assert (HT : (0 <= sum_entries all)%Z).
  { clear -Hnn. induction Hnn; unfold sum_entries in *; cbn [fold_right]; lia. }
  assert (Hb : (0 <= _calculate_optimal_order_size
                  match all with
                  | [] => []
                  | e0 :: _ => curve_loop (entry_price (nth (Nat.div (length all) 2) all e0)) 0 all
                  end <= sum_entries all)%Z).
  { apply optimal_order_size_bounds; [exact HT|].
    destruct all as [|e0 rest]; [constructor|].
    destruct (curve_loop_bounds (entry_price (nth (Nat.div (length (e0 :: rest)) 2) (e0 :: rest) e0))
                (e0 :: rest) 0%Z Hnn) as [H _]. exact H. }
  split; [lia|]. rewrite <- Hsum. rewrite <- Zle_Qle. lia.
Qed.

End AnalysisOpsClaims.

Module AnalysisOpsExamples.
Import Analysis AnalysisOps.
Local Open Scope Q_scope.

(** Twenty bids stepping down by 0.05 from 100 and twenty asks stepping
    up by 0.05 from 100.05, ten shares each. *)
Definition ladder_bid : list Level :=
  map (fun i => {| price := 100 - inject_Z (Z.of_nat i) * (1 # 20);
                   quantity := 10; orders := 1 |}) (seq 0 20).

Definition ladder_ask : list Level :=
  map (fun i => {| price := (2001 # 20) + inject_Z (Z.of_nat i) * (1 # 20);
                   quantity := 10; orders := 1 |}) (seq 0 20).

Definition ladder_book : Response :=
  {| security_id := "1333"; exchange_segment := "NSE_EQ";
     bid_levels := ladder_bid; ask_levels := ladder_ask |}.

Lemma forall_price_le (P : Q -> Q -> Prop) (f : Q -> Q -> bool) (ls : list Level) (x : Q) :
  (forall a b, f a b = true -> P a b) ->
  forallb (fun l => f (price l) x) ls = true -> Forall (fun l => P (price l) x) ls.
Proof.
  intros Hf H. apply Forall_forall. intros l Hl. apply Hf.
  apply list_elem_of_In in Hl. exact (proj1 (forallb_forall _ ls) H l Hl).
Qed.

(** Twenty bids stepping down by 1 from 1000 and twenty asks stepping up
    by 2 from 1001, ten shares each. *)
Definition int_ladder_bid : list Level :=
  map (fun i => {| price := inject_Z (1000 - Z.of_nat i * 1);
                   quantity := 10; orders := 1 |}) (seq 0 20).

Definition int_ladder_ask : list Level :=
  map (fun i => {| price := inject_Z (1001 + Z.of_nat i * 2);
                   quantity := 10; orders := 1 |}) (seq 0 20).

Lemma market_efficiency_integer_ladder_witness :
  ((2 <= length int_ladder_bid)%nat /\ (2 <= length int_ladder_ask)%nat
   /\ map price int_ladder_bid
      = map (fun i => inject_Z (1000 - Z.of_nat i * 1)) (seq 0 (length int_ladder_bid))
   /\ map price int_ladder_ask
      = map (fun i => inject_Z (1001 + Z.of_nat i * 2)) (seq 0 (length int_ladder_ask)))
  /\ _calculate_market_efficiency int_ladder_bid int_ladder_ask == 100.
Proof.
  assert (H1 : (2 <= length int_ladder_bid)%nat) by (vm_compute; lia).
  assert (H2 : (2 <= length int_ladder_ask)%nat) by (vm_compute; lia).
  assert (H3 : map price int_ladder_bid
      = map (fun i => inject_Z (1000 - Z.of_nat i * 1)) (seq 0 (length int_ladder_bid)))
    by reflexivity.
  assert (H4 : map price int_ladder_ask
      = map (fun i => inject_Z (1001 + Z.of_nat i * 2)) (seq 0 (length int_ladder_ask)))
    by reflexivity.
  split; [split; [exact H1 | split; [exact H2 | split; [exact H3 | exact H4]]]|].
  exact (AnalysisOpsClaims.market_efficiency_integer_ladder int_ladder_bid int_ladder_ask
           1000 1 1001 2 H1 H2 H3 H4).
Defined.

Lemma price_impact_bounds_witness :
  (forall b0 a0, hd_error ladder_bid = Some b0 -> hd_error ladder_ask = Some a0 ->
                 price b0 <= price a0)
  /\ 0 <= _calculate_price_impact ladder_bid ladder_ask <= 1.
Proof.
  assert (H : forall b0 a0, hd_error ladder_bid = Some b0 -> hd_error ladder_ask = Some a0 ->
                            price b0 <= price a0).
  { intros b0 a0 Hb Ha. cbn in Hb, Ha. injection Hb as <-. injection Ha as <-.
    apply Qle_bool_iff. reflexivity. }
  destruct (AnalysisOpsClaims.price_impact_bounds ladder_bid ladder_ask) as [Hup Hlow].
  split; [exact H|]. split; [exact (Hlow H) | exact Hup].
Defined.

Lemma stop_loss_beyond_spread_witness :
  let b0 := hd {| price := 0; quantity := 0; orders := 0 |} ladder_bid in
  let a0 := hd {| price := 0; quantity := 0; orders := 0 |} ladder_ask in
  (bid_levels ladder_book = b0 :: tl ladder_bid /\ ask_levels ladder_book = a0 :: tl ladder_ask
   /\ price b0 <= price a0
   /\ Forall (fun l => price l <= price b0) (tl ladder_bid)
   /\ Forall (fun l => price a0 <= price l) (tl ladder_ask))
  /\ (match _calculate_stop_loss ladder_book BUY with
      | Some s => s <= price b0 - (price a0 - price b0)
      | None => False
      end
      /\ match _calculate_stop_loss ladder_book SELL with
         | Some s => price a0 + (price a0 - price b0) <= s
         | None => False
         end
      /\ _calculate_stop_loss ladder_book HOLD = None).
Proof.
  cbv zeta.
  assert (H1 : bid_levels ladder_book
               = hd {| price := 0; quantity := 0; orders := 0 |} ladder_bid :: tl ladder_bid)
    by reflexivity.
  assert (H2 : ask_levels ladder_book
               = hd {| price := 0; quantity := 0; orders := 0 |} ladder_ask :: tl ladder_ask)
    by reflexivity.
  assert (H3 : price (hd {| price := 0; quantity := 0; orders := 0 |} ladder_bid)
               <= price (hd {| price := 0; quantity := 0; orders := 0 |} ladder_ask))
    by (apply Qle_bool_iff; reflexivity).
  assert (H4 : Forall (fun l => price l <= price (hd {| price := 0; quantity := 0; orders := 0 |}
                                                     ladder_bid)) (tl ladder_bid)).
  { apply (forall_price_le Qle Qle_bool); [intros a b; apply Qle_bool_iff|reflexivity]. }
  assert (H5 : Forall (fun l => price (hd {| price := 0; quantity := 0; orders := 0 |} ladder_ask)
                                <= price l) (tl ladder_ask)).
  { apply (forall_price_le (fun a b => b <= a) (fun a b => Qle_bool b a));
      [intros a b; apply Qle_bool_iff|reflexivity]. }
  split; [repeat split; assumption|].
  exact (AnalysisOpsClaims.stop_loss_beyond_spread ladder_book _ _ _ _ H1 H2 H3 H4 H5).
Defined.

End AnalysisOpsExamples.
